(** * GY521 (MPU-6050) accelerometer / gyroscope driver

    A shallow embedding of [libraries/GY521/GY521.cpp] (version 0.3.7) and
    the properties of its sampling, throttling, error and sensitivity code.

    - Fixed-width integers are [Z] with the wrap-around of every narrowing
      conversion written out ([Int.to_uint8], [Int.to_int16], ...).
    - [float] / [double] values are elements of a type [F] that comes with the
      operations the driver uses (classes [FloatOps] and [MathLib]); the
      driver is written once over any such [F].  No law is assumed of these
      operations, so what is proved of the generic driver holds whatever the
      rounding is.  Numeric statements are made at the instances [RealFloat]
      (exact real arithmetic) and [Binary32] (IEEE 754 single precision,
      round to nearest even).
      One type stands for both [float] and [double].
    - The I2C bus ([TwoWire *_wire]) and the Arduino clocks are interfaces
      (classes [Wire.TwoWire] and [Clock]) over a world type [W]; every
      method threads the world.  [Fake] is a simulated device behind that
      interface, with scripted failures and a log of the write transactions
      it has seen.
    - The constants of [GY521.h] and [GY521_registers.h], which the file
      includes, are the fields of the class [Header]. *)

From Stdlib Require Import ZArith Bool List Lia QArith Qreals Reals Lra.
From Stdlib Require Import SpecFloat.
Import ListNotations.

Local Open Scope Z_scope.

(** ** Fixed-width integer conversions *)

Module Int.

Definition to_uint8 (z : Z) : Z := z mod 256.
Definition to_uint16 (z : Z) : Z := z mod 65536.
Definition to_uint32 (z : Z) : Z := z mod 4294967296.
Definition to_int8 (z : Z) : Z := (z + 128) mod 256 - 128.
Definition to_int16 (z : Z) : Z := (z + 32768) mod 65536 - 32768.

End Int.

Import Int.

(** ** Floating-point operations used by the driver *)

Class FloatOps (F : Type) : Type := {
  (** conversion of an integer value to floating point *)
  of_int : Z -> F;
  (** a decimal literal of the source, given as the rational it denotes *)
  lit : Q -> F;
  fadd : F -> F -> F;
  fmul : F -> F -> F;
  fdiv : F -> F -> F
}.

(** [atan] and [sqrt] of the C library, [PI] of [Arduino.h]. *)
Class MathLib (F : Type) : Type := {
  atan : F -> F;
  sqrt : F -> F;
  PI : F
}.

Declare Scope flt_scope.
Delimit Scope flt_scope with flt.
Infix "+" := fadd : flt_scope.
Infix "*" := fmul : flt_scope.
Infix "/" := fdiv : flt_scope.

(** ** The bus and the clocks *)

(** [Wire.TwoWire] has the methods of the Arduino [TwoWire] class that the
    driver calls through [_wire].  A method that returns a value returns it
    together with the next world. *)
Module Wire.

Class TwoWire (W : Type) : Type := {
  begin : W -> W;
  begin_pins : Z -> Z -> W -> W;
  beginTransmission : Z -> W -> W;
  write : Z -> W -> W;
  endTransmission : W -> Z * W;
  requestFrom : Z -> Z -> W -> Z * W;
  read : W -> Z * W
}.

End Wire.

(** The Arduino clocks [millis()] and [micros()]: reading a clock observes the
    world and leaves it as it is; bus traffic may advance it. *)
Class Clock (W : Type) : Type := {
  millis : W -> Z;
  micros : W -> Z
}.

(** ** Constants of the included headers *)

(** The status codes, the default throttle time and the register addresses are
    defined in [GY521.h] and [GY521_registers.h]. *)
Class Header : Type := {
  GY521_THROTTLED : Z;
  GY521_ERROR_READ : Z;
  GY521_ERROR_WRITE : Z;
  GY521_THROTTLE_TIME : Z;
  GY521_PWR_MGMT_1 : Z;
  GY521_ACCEL_CONFIG : Z;
  GY521_GYRO_CONFIG : Z;
  GY521_ACCEL_XOUT_H : Z;
  GY521_TEMP_OUT_H : Z;
  GY521_GYRO_XOUT_H : Z
}.

(** Modelled from the spec: [GY521_OK] is defined in the header [GY521.h];
    the error taxonomy gives it as OK (0), and [setAccelSensitivity] tests
    [_error != 0] where [getAccelSensitivity] tests [_error != GY521_OK]. *)
Definition GY521_OK : Z := 0.

Definition GY521_WAKEUP : Z := 0.

(** ** The driver object *)

Section State.

Context {F : Type}.

(** Modelled from the spec: the data members of [class GY521] are declared in
    the header [GY521.h].  They are named as [GY521.cpp] names them and typed
    as it uses them and as the data model describes them: an 8-bit address,
    the throttle flag, interval and timestamp, the microsecond timing
    reference, the last error, a 2-bit sensitivity code and a scale factor
    for each sensor, floating-point samples, angles and biases.  The pointer
    [_wire] is the world that every method takes and returns. *)
Record GY521 : Type := mkGY521 {
  _address : Z;        (* uint8_t *)
  _throttle : bool;
  _throttleTime : Z;   (* uint16_t, milliseconds *)
  _lastTime : Z;       (* uint32_t, milliseconds *)
  _lastMicros : Z;     (* uint32_t, microseconds *)
  _error : Z;          (* int16_t *)
  _afs : Z;            (* uint8_t *)
  _raw2g : F;
  _ax : F; _ay : F; _az : F;
  _aax : F; _aay : F; _aaz : F;
  _gfs : Z;            (* uint8_t *)
  _raw2dps : F;
  _gx : F; _gy : F; _gz : F;
  _gax : F; _gay : F; _gaz : F;
  _pitch : F; _roll : F; _yaw : F;
  _temperature : F;
  axe : F; aye : F; aze : F;
  gxe : F; gye : F; gze : F
}.

(** Assignments to members. *)

Definition set_address (v : Z) (s : GY521) : GY521 :=
  {|
    _address := v; _throttle := _throttle s;
    _throttleTime := _throttleTime s; _lastTime := _lastTime s;
    _lastMicros := _lastMicros s; _error := _error s; _afs := _afs s;
    _raw2g := _raw2g s; _ax := _ax s; _ay := _ay s; _az := _az s;
    _aax := _aax s; _aay := _aay s; _aaz := _aaz s; _gfs := _gfs s;
    _raw2dps := _raw2dps s; _gx := _gx s; _gy := _gy s; _gz := _gz s;
    _gax := _gax s; _gay := _gay s; _gaz := _gaz s; _pitch := _pitch s;
    _roll := _roll s; _yaw := _yaw s; _temperature := _temperature s;
    axe := axe s; aye := aye s; aze := aze s; gxe := gxe s; gye := gye s;
    gze := gze s
  |}.

Definition set_throttleTime (v : Z) (s : GY521) : GY521 :=
  {|
    _address := _address s; _throttle := _throttle s; _throttleTime := v;
    _lastTime := _lastTime s; _lastMicros := _lastMicros s;
    _error := _error s; _afs := _afs s; _raw2g := _raw2g s; _ax := _ax s;
    _ay := _ay s; _az := _az s; _aax := _aax s; _aay := _aay s;
    _aaz := _aaz s; _gfs := _gfs s; _raw2dps := _raw2dps s; _gx := _gx s;
    _gy := _gy s; _gz := _gz s; _gax := _gax s; _gay := _gay s;
    _gaz := _gaz s; _pitch := _pitch s; _roll := _roll s; _yaw := _yaw s;
    _temperature := _temperature s; axe := axe s; aye := aye s; aze := aze s;
    gxe := gxe s; gye := gye s; gze := gze s
  |}.

Definition set_lastTime (v : Z) (s : GY521) : GY521 :=
  {|
    _address := _address s; _throttle := _throttle s;
    _throttleTime := _throttleTime s; _lastTime := v;
    _lastMicros := _lastMicros s; _error := _error s; _afs := _afs s;
    _raw2g := _raw2g s; _ax := _ax s; _ay := _ay s; _az := _az s;
    _aax := _aax s; _aay := _aay s; _aaz := _aaz s; _gfs := _gfs s;
    _raw2dps := _raw2dps s; _gx := _gx s; _gy := _gy s; _gz := _gz s;
    _gax := _gax s; _gay := _gay s; _gaz := _gaz s; _pitch := _pitch s;
    _roll := _roll s; _yaw := _yaw s; _temperature := _temperature s;
    axe := axe s; aye := aye s; aze := aze s; gxe := gxe s; gye := gye s;
    gze := gze s
  |}.

Definition set_lastMicros (v : Z) (s : GY521) : GY521 :=
  {|
    _address := _address s; _throttle := _throttle s;
    _throttleTime := _throttleTime s; _lastTime := _lastTime s;
    _lastMicros := v; _error := _error s; _afs := _afs s; _raw2g := _raw2g s;
    _ax := _ax s; _ay := _ay s; _az := _az s; _aax := _aax s; _aay := _aay s;
    _aaz := _aaz s; _gfs := _gfs s; _raw2dps := _raw2dps s; _gx := _gx s;
    _gy := _gy s; _gz := _gz s; _gax := _gax s; _gay := _gay s;
    _gaz := _gaz s; _pitch := _pitch s; _roll := _roll s; _yaw := _yaw s;
    _temperature := _temperature s; axe := axe s; aye := aye s; aze := aze s;
    gxe := gxe s; gye := gye s; gze := gze s
  |}.

Definition set_error (v : Z) (s : GY521) : GY521 :=
  {|
    _address := _address s; _throttle := _throttle s;
    _throttleTime := _throttleTime s; _lastTime := _lastTime s;
    _lastMicros := _lastMicros s; _error := v; _afs := _afs s;
    _raw2g := _raw2g s; _ax := _ax s; _ay := _ay s; _az := _az s;
    _aax := _aax s; _aay := _aay s; _aaz := _aaz s; _gfs := _gfs s;
    _raw2dps := _raw2dps s; _gx := _gx s; _gy := _gy s; _gz := _gz s;
    _gax := _gax s; _gay := _gay s; _gaz := _gaz s; _pitch := _pitch s;
    _roll := _roll s; _yaw := _yaw s; _temperature := _temperature s;
    axe := axe s; aye := aye s; aze := aze s; gxe := gxe s; gye := gye s;
    gze := gze s
  |}.

Definition set_afs (v : Z) (s : GY521) : GY521 :=
  {|
    _address := _address s; _throttle := _throttle s;
    _throttleTime := _throttleTime s; _lastTime := _lastTime s;
    _lastMicros := _lastMicros s; _error := _error s; _afs := v;
    _raw2g := _raw2g s; _ax := _ax s; _ay := _ay s; _az := _az s;
    _aax := _aax s; _aay := _aay s; _aaz := _aaz s; _gfs := _gfs s;
    _raw2dps := _raw2dps s; _gx := _gx s; _gy := _gy s; _gz := _gz s;
    _gax := _gax s; _gay := _gay s; _gaz := _gaz s; _pitch := _pitch s;
    _roll := _roll s; _yaw := _yaw s; _temperature := _temperature s;
    axe := axe s; aye := aye s; aze := aze s; gxe := gxe s; gye := gye s;
    gze := gze s
  |}.

Definition set_raw2g (v : F) (s : GY521) : GY521 :=
  {|
    _address := _address s; _throttle := _throttle s;
    _throttleTime := _throttleTime s; _lastTime := _lastTime s;
    _lastMicros := _lastMicros s; _error := _error s; _afs := _afs s;
    _raw2g := v; _ax := _ax s; _ay := _ay s; _az := _az s; _aax := _aax s;
    _aay := _aay s; _aaz := _aaz s; _gfs := _gfs s; _raw2dps := _raw2dps s;
    _gx := _gx s; _gy := _gy s; _gz := _gz s; _gax := _gax s; _gay := _gay s;
    _gaz := _gaz s; _pitch := _pitch s; _roll := _roll s; _yaw := _yaw s;
    _temperature := _temperature s; axe := axe s; aye := aye s; aze := aze s;
    gxe := gxe s; gye := gye s; gze := gze s
  |}.

Definition set_gfs (v : Z) (s : GY521) : GY521 :=
  {|
    _address := _address s; _throttle := _throttle s;
    _throttleTime := _throttleTime s; _lastTime := _lastTime s;
    _lastMicros := _lastMicros s; _error := _error s; _afs := _afs s;
    _raw2g := _raw2g s; _ax := _ax s; _ay := _ay s; _az := _az s;
    _aax := _aax s; _aay := _aay s; _aaz := _aaz s; _gfs := v;
    _raw2dps := _raw2dps s; _gx := _gx s; _gy := _gy s; _gz := _gz s;
    _gax := _gax s; _gay := _gay s; _gaz := _gaz s; _pitch := _pitch s;
    _roll := _roll s; _yaw := _yaw s; _temperature := _temperature s;
    axe := axe s; aye := aye s; aze := aze s; gxe := gxe s; gye := gye s;
    gze := gze s
  |}.

Definition set_raw2dps (v : F) (s : GY521) : GY521 :=
  {|
    _address := _address s; _throttle := _throttle s;
    _throttleTime := _throttleTime s; _lastTime := _lastTime s;
    _lastMicros := _lastMicros s; _error := _error s; _afs := _afs s;
    _raw2g := _raw2g s; _ax := _ax s; _ay := _ay s; _az := _az s;
    _aax := _aax s; _aay := _aay s; _aaz := _aaz s; _gfs := _gfs s;
    _raw2dps := v; _gx := _gx s; _gy := _gy s; _gz := _gz s; _gax := _gax s;
    _gay := _gay s; _gaz := _gaz s; _pitch := _pitch s; _roll := _roll s;
    _yaw := _yaw s; _temperature := _temperature s; axe := axe s;
    aye := aye s; aze := aze s; gxe := gxe s; gye := gye s; gze := gze s
  |}.

Definition set_temperature (v : F) (s : GY521) : GY521 :=
  {|
    _address := _address s; _throttle := _throttle s;
    _throttleTime := _throttleTime s; _lastTime := _lastTime s;
    _lastMicros := _lastMicros s; _error := _error s; _afs := _afs s;
    _raw2g := _raw2g s; _ax := _ax s; _ay := _ay s; _az := _az s;
    _aax := _aax s; _aay := _aay s; _aaz := _aaz s; _gfs := _gfs s;
    _raw2dps := _raw2dps s; _gx := _gx s; _gy := _gy s; _gz := _gz s;
    _gax := _gax s; _gay := _gay s; _gaz := _gaz s; _pitch := _pitch s;
    _roll := _roll s; _yaw := _yaw s; _temperature := v; axe := axe s;
    aye := aye s; aze := aze s; gxe := gxe s; gye := gye s; gze := gze s
  |}.

Definition set_accel (x : F) (y : F) (z : F) (s : GY521) : GY521 :=
  {|
    _address := _address s; _throttle := _throttle s;
    _throttleTime := _throttleTime s; _lastTime := _lastTime s;
    _lastMicros := _lastMicros s; _error := _error s; _afs := _afs s;
    _raw2g := _raw2g s; _ax := x; _ay := y; _az := z; _aax := _aax s;
    _aay := _aay s; _aaz := _aaz s; _gfs := _gfs s; _raw2dps := _raw2dps s;
    _gx := _gx s; _gy := _gy s; _gz := _gz s; _gax := _gax s; _gay := _gay s;
    _gaz := _gaz s; _pitch := _pitch s; _roll := _roll s; _yaw := _yaw s;
    _temperature := _temperature s; axe := axe s; aye := aye s; aze := aze s;
    gxe := gxe s; gye := gye s; gze := gze s
  |}.

Definition set_accel_angle (x : F) (y : F) (z : F) (s : GY521) : GY521 :=
  {|
    _address := _address s; _throttle := _throttle s;
    _throttleTime := _throttleTime s; _lastTime := _lastTime s;
    _lastMicros := _lastMicros s; _error := _error s; _afs := _afs s;
    _raw2g := _raw2g s; _ax := _ax s; _ay := _ay s; _az := _az s; _aax := x;
    _aay := y; _aaz := z; _gfs := _gfs s; _raw2dps := _raw2dps s;
    _gx := _gx s; _gy := _gy s; _gz := _gz s; _gax := _gax s; _gay := _gay s;
    _gaz := _gaz s; _pitch := _pitch s; _roll := _roll s; _yaw := _yaw s;
    _temperature := _temperature s; axe := axe s; aye := aye s; aze := aze s;
    gxe := gxe s; gye := gye s; gze := gze s
  |}.

Definition set_gyro (x : F) (y : F) (z : F) (s : GY521) : GY521 :=
  {|
    _address := _address s; _throttle := _throttle s;
    _throttleTime := _throttleTime s; _lastTime := _lastTime s;
    _lastMicros := _lastMicros s; _error := _error s; _afs := _afs s;
    _raw2g := _raw2g s; _ax := _ax s; _ay := _ay s; _az := _az s;
    _aax := _aax s; _aay := _aay s; _aaz := _aaz s; _gfs := _gfs s;
    _raw2dps := _raw2dps s; _gx := x; _gy := y; _gz := z; _gax := _gax s;
    _gay := _gay s; _gaz := _gaz s; _pitch := _pitch s; _roll := _roll s;
    _yaw := _yaw s; _temperature := _temperature s; axe := axe s;
    aye := aye s; aze := aze s; gxe := gxe s; gye := gye s; gze := gze s
  |}.

Definition set_gyro_angle (x : F) (y : F) (z : F) (s : GY521) : GY521 :=
  {|
    _address := _address s; _throttle := _throttle s;
    _throttleTime := _throttleTime s; _lastTime := _lastTime s;
    _lastMicros := _lastMicros s; _error := _error s; _afs := _afs s;
    _raw2g := _raw2g s; _ax := _ax s; _ay := _ay s; _az := _az s;
    _aax := _aax s; _aay := _aay s; _aaz := _aaz s; _gfs := _gfs s;
    _raw2dps := _raw2dps s; _gx := _gx s; _gy := _gy s; _gz := _gz s;
    _gax := x; _gay := y; _gaz := z; _pitch := _pitch s; _roll := _roll s;
    _yaw := _yaw s; _temperature := _temperature s; axe := axe s;
    aye := aye s; aze := aze s; gxe := gxe s; gye := gye s; gze := gze s
  |}.

Definition set_pitch (v : F) (s : GY521) : GY521 :=
  {|
    _address := _address s; _throttle := _throttle s;
    _throttleTime := _throttleTime s; _lastTime := _lastTime s;
    _lastMicros := _lastMicros s; _error := _error s; _afs := _afs s;
    _raw2g := _raw2g s; _ax := _ax s; _ay := _ay s; _az := _az s;
    _aax := _aax s; _aay := _aay s; _aaz := _aaz s; _gfs := _gfs s;
    _raw2dps := _raw2dps s; _gx := _gx s; _gy := _gy s; _gz := _gz s;
    _gax := _gax s; _gay := _gay s; _gaz := _gaz s; _pitch := v;
    _roll := _roll s; _yaw := _yaw s; _temperature := _temperature s;
    axe := axe s; aye := aye s; aze := aze s; gxe := gxe s; gye := gye s;
    gze := gze s
  |}.

Definition set_roll (v : F) (s : GY521) : GY521 :=
  {|
    _address := _address s; _throttle := _throttle s;
    _throttleTime := _throttleTime s; _lastTime := _lastTime s;
    _lastMicros := _lastMicros s; _error := _error s; _afs := _afs s;
    _raw2g := _raw2g s; _ax := _ax s; _ay := _ay s; _az := _az s;
    _aax := _aax s; _aay := _aay s; _aaz := _aaz s; _gfs := _gfs s;
    _raw2dps := _raw2dps s; _gx := _gx s; _gy := _gy s; _gz := _gz s;
    _gax := _gax s; _gay := _gay s; _gaz := _gaz s; _pitch := _pitch s;
    _roll := v; _yaw := _yaw s; _temperature := _temperature s; axe := axe s;
    aye := aye s; aze := aze s; gxe := gxe s; gye := gye s; gze := gze s
  |}.

Definition set_yaw (v : F) (s : GY521) : GY521 :=
  {|
    _address := _address s; _throttle := _throttle s;
    _throttleTime := _throttleTime s; _lastTime := _lastTime s;
    _lastMicros := _lastMicros s; _error := _error s; _afs := _afs s;
    _raw2g := _raw2g s; _ax := _ax s; _ay := _ay s; _az := _az s;
    _aax := _aax s; _aay := _aay s; _aaz := _aaz s; _gfs := _gfs s;
    _raw2dps := _raw2dps s; _gx := _gx s; _gy := _gy s; _gz := _gz s;
    _gax := _gax s; _gay := _gay s; _gaz := _gaz s; _pitch := _pitch s;
    _roll := _roll s; _yaw := v; _temperature := _temperature s;
    axe := axe s; aye := aye s; aze := aze s; gxe := gxe s; gye := gye s;
    gze := gze s
  |}.

End State.

Arguments GY521 F : clear implicits.

(** ** The methods of [GY521.cpp] *)

Section Driver.

Context {F : Type} {FO : FloatOps F} {ML : MathLib F}.
Context {W : Type} {TW : Wire.TwoWire W} {CK : Clock W}.
Context {H : Header}.

Local Open Scope flt_scope.

Local Abbreviation state := (GY521 F).

Definition RAD2DEGREES : F := lit 180 / PI.
Definition RAW2DPS_FACTOR : F := lit 1 / lit 131.
Definition RAW2G_FACTOR : F := lit 1 / lit 16384.

(** Modelled from the spec: [setThrottleTime] is an inline member of the
    header [GY521.h]; it stores the minimum interval in milliseconds, a
    16-bit unsigned value. *)
Definition setThrottleTime (ti : Z) (s : state) : state :=
  set_throttleTime (to_uint16 ti) s.

Definition reset (s : state) : state :=
  let s := setThrottleTime GY521_THROTTLE_TIME s in
  let s := set_accel (of_int 0) (of_int 0) (of_int 0) s in
  let s := set_accel_angle (of_int 0) (of_int 0) (of_int 0) s in
  let s := set_gyro (of_int 0) (of_int 0) (of_int 0) s in
  let s := set_pitch (of_int 0) s in
  let s := set_roll (of_int 0) s in
  let s := set_yaw (of_int 0) s in
  s.

(** The constructor: [s0] is the object before the constructor body runs (its
    members as the header's default initialisers leave them). *)
Definition GY521_new (address : Z) (s0 : state) : state :=
  let s := set_address (to_uint8 address) s0 in
  reset s.

Definition isConnected (w : W) (s : state) : bool * W :=
  let w := Wire.beginTransmission (_address s) w in
  let '(st, w) := Wire.endTransmission w in
  (st =? 0, w).

Definition wakeup (w : W) (s : state) : bool * W :=
  let w := Wire.beginTransmission (_address s) w in
  let w := Wire.write GY521_PWR_MGMT_1 w in
  let w := Wire.write GY521_WAKEUP w in
  let '(st, w) := Wire.endTransmission w in
  (st =? 0, w).

Definition begin (w : W) (s : state) : bool * W :=
  let w := Wire.begin w in
  let '(c, w) := isConnected w s in
  if c then wakeup w s else (false, w).

Definition begin_pins (sda scl : Z) (w : W) (s : state) : bool * W :=
  let w := Wire.begin_pins sda scl w in
  let '(c, w) := isConnected w s in
  if c then wakeup w s else (false, w).

(** [_WireRead2]: two bytes, high byte first, into an [int16_t]. *)
Definition _WireRead2 (w : W) : Z * W :=
  let '(b, w) := Wire.read w in
  let tmp := to_int16 b in
  let tmp := to_int16 (Z.shiftl tmp 8) in
  let '(b, w) := Wire.read w in
  let tmp := to_int16 (Z.lor tmp b) in
  (tmp, w).

(** The throttle test at the head of [read], [readAccel] and [readGyro]:
    [_throttle && (now - _lastTime) < _throttleTime], the difference taken in
    [uint32_t]. *)
Definition throttled (now : Z) (s : state) : bool :=
  _throttle s && (to_uint32 (now - _lastTime s) <? _throttleTime s).

(** The conversion blocks of [read], which [readAccel] and [readGyro] repeat
    in part; each is named after the comment that heads it in the source. *)

(** Convert raw acceleration to g's. *)
Definition convert_raw_acceleration (s : state) : state :=
  set_accel (_ax s * _raw2g s) (_ay s * _raw2g s) (_az s * _raw2g s) s.

(** Error correct raw acceleration (in g) measurements. *)
Definition error_correct_acceleration (s : state) : state :=
  set_accel (_ax s + axe s) (_ay s + aye s) (_az s + aze s) s.

(** Prepare for Pitch Roll Yaw: the tilt angles from the accelerometer. *)
Definition prepare_pitch_roll_yaw (s : state) : state :=
  let _ax2 := _ax s * _ax s in
  let _ay2 := _ay s * _ay s in
  let _az2 := _az s * _az s in
  set_accel_angle
    (atan (_ay s / sqrt (_ax2 + _az2)) * RAD2DEGREES)
    (atan (lit (-1) * _ax s / sqrt (_ay2 + _az2)) * RAD2DEGREES)
    (atan (_az s / sqrt (_ax2 + _ay2)) * RAD2DEGREES) s.

(** Convert to Celsius. *)
Definition convert_to_celsius (s : state) : state :=
  set_temperature
    (_temperature s * lit (294117647 # 100000000000) + lit (3653 # 100)) s.

(** Convert raw Gyro to degrees/seconds. *)
Definition convert_raw_gyro (s : state) : state :=
  set_gyro (_gx s * _raw2dps s) (_gy s * _raw2dps s) (_gz s * _raw2dps s) s.

(** Error correct raw gyro measurements. *)
Definition error_correct_gyro (s : state) : state :=
  set_gyro (_gx s + gxe s) (_gy s + gye s) (_gz s + gze s) s.

(** [_gax += _gx * duration;] and the same for y and z. *)
Definition integrate_gyro (duration : F) (s : state) : state :=
  set_gyro_angle
    (_gax s + _gx s * duration)
    (_gay s + _gy s * duration)
    (_gaz s + _gz s * duration) s.

(** The last three assignments of [read]: [_yaw], [_pitch], [_roll]. *)
Definition pitch_roll_yaw (s : state) : state :=
  let s := set_yaw (_gaz s) s in
  let s := set_pitch (lit (96 # 100) * _gay s + lit (4 # 100) * _aay s) s in
  let s := set_roll (lit (96 # 100) * _gax s + lit (4 # 100) * _aax s) s in
  s.

(** Duration interval: [(now - _lastMicros) * 1e-6], in seconds. *)
Definition duration_since (now : Z) (s : state) : F :=
  of_int (to_uint32 (now - _lastMicros s)) * lit (1 # 1000000).


Definition read (w : W) (s : state) : Z * W * state :=
  let now := to_uint32 (millis w) in
  if throttled now s then (to_int16 GY521_THROTTLED, w, s) else
  let s := set_lastTime now s in
  let w := Wire.beginTransmission (_address s) w in
  let w := Wire.write GY521_ACCEL_XOUT_H w in
  let '(st, w) := Wire.endTransmission w in
  if negb (st =? 0) then
    let s := set_error (to_int16 GY521_ERROR_WRITE) s in
    (_error s, w, s)
  else
  let '(n, w) := Wire.requestFrom (_address s) 14 w in
  let n := to_int8 n in
  if negb (n =? 14) then
    let s := set_error (to_int16 GY521_ERROR_READ) s in
    (_error s, w, s)
  else
  let '(rax, w) := _WireRead2 w in
  let '(ray, w) := _WireRead2 w in
  let '(raz, w) := _WireRead2 w in
  let '(rt, w) := _WireRead2 w in
  let '(rgx, w) := _WireRead2 w in
  let '(rgy, w) := _WireRead2 w in
  let '(rgz, w) := _WireRead2 w in
  let s := set_accel (of_int rax) (of_int ray) (of_int raz) s in
  let s := set_temperature (of_int rt) s in
  let s := set_gyro (of_int rgx) (of_int rgy) (of_int rgz) s in
  let now := to_uint32 (micros w) in
  let duration := duration_since now s in
  let s := set_lastMicros now s in
  let s := convert_raw_acceleration s in
  let s := error_correct_acceleration s in
  let s := prepare_pitch_roll_yaw s in
  let s := convert_to_celsius s in
  let s := convert_raw_gyro s in
  let s := error_correct_gyro s in
  let s := integrate_gyro duration s in
  let s := pitch_roll_yaw s in
  (GY521_OK, w, s).

Definition readAccel (w : W) (s : state) : Z * W * state :=
  let now := to_uint32 (millis w) in
  if throttled now s then (to_int16 GY521_THROTTLED, w, s) else
  let s := set_lastTime now s in
  let w := Wire.beginTransmission (_address s) w in
  let w := Wire.write GY521_ACCEL_XOUT_H w in
  let '(st, w) := Wire.endTransmission w in
  if negb (st =? 0) then
    let s := set_error (to_int16 GY521_ERROR_WRITE) s in
    (_error s, w, s)
  else
  let '(n, w) := Wire.requestFrom (_address s) 6 w in
  let n := to_int8 n in
  if negb (n =? 6) then
    let s := set_error (to_int16 GY521_ERROR_READ) s in
    (_error s, w, s)
  else
  let '(rax, w) := _WireRead2 w in
  let '(ray, w) := _WireRead2 w in
  let '(raz, w) := _WireRead2 w in
  let s := set_accel (of_int rax) (of_int ray) (of_int raz) s in
  let s := convert_raw_acceleration s in
  let s := error_correct_acceleration s in
  let s := prepare_pitch_roll_yaw s in
  (GY521_OK, w, s).

Definition readGyro (w : W) (s : state) : Z * W * state :=
  let now := to_uint32 (millis w) in
  if throttled now s then (to_int16 GY521_THROTTLED, w, s) else
  let s := set_lastTime now s in
  let w := Wire.beginTransmission (_address s) w in
  let w := Wire.write GY521_GYRO_XOUT_H w in
  let '(st, w) := Wire.endTransmission w in
  if negb (st =? 0) then
    let s := set_error (to_int16 GY521_ERROR_WRITE) s in
    (_error s, w, s)
  else
  let '(n, w) := Wire.requestFrom (_address s) 6 w in
  let n := to_int8 n in
  if negb (n =? 6) then
    let s := set_error (to_int16 GY521_ERROR_READ) s in
    (_error s, w, s)
  else
  let '(rgx, w) := _WireRead2 w in
  let '(rgy, w) := _WireRead2 w in
  let '(rgz, w) := _WireRead2 w in
  let s := set_gyro (of_int rgx) (of_int rgy) (of_int rgz) s in
  let now := to_uint32 (micros w) in
  let duration := duration_since now s in
  let s := set_lastMicros now s in
  let s := convert_raw_gyro s in
  let s := error_correct_gyro s in
  let s := integrate_gyro duration s in
  (GY521_OK, w, s).

Definition readTemperature (w : W) (s : state) : Z * W * state :=
  let w := Wire.beginTransmission (_address s) w in
  let w := Wire.write GY521_TEMP_OUT_H w in
  let '(st, w) := Wire.endTransmission w in
  if negb (st =? 0) then
    let s := set_error (to_int16 GY521_ERROR_WRITE) s in
    (_error s, w, s)
  else
  let '(n, w) := Wire.requestFrom (_address s) 2 w in
  let n := to_int8 n in
  if negb (n =? 2) then
    let s := set_error (to_int16 GY521_ERROR_READ) s in
    (_error s, w, s)
  else
  let '(rt, w) := _WireRead2 w in
  let s := set_temperature (of_int rt) s in
  (GY521_OK, w, s).

Definition setRegister (reg value : Z) (w : W) (s : state) : Z * W * state :=
  let w := Wire.beginTransmission (_address s) w in
  let w := Wire.write reg w in
  let w := Wire.write value w in
  let '(st, w) := Wire.endTransmission w in
  if negb (st =? 0) then
    let s := set_error (to_int16 GY521_ERROR_WRITE) s in
    (to_uint8 (_error s), w, s)
  else
  (GY521_OK, w, s).

Definition getRegister (reg : Z) (w : W) (s : state) : Z * W * state :=
  let w := Wire.beginTransmission (_address s) w in
  let w := Wire.write reg w in
  let '(st, w) := Wire.endTransmission w in
  if negb (st =? 0) then
    let s := set_error (to_int16 GY521_ERROR_WRITE) s in
    (to_uint8 (_error s), w, s)
  else
  let '(n, w) := Wire.requestFrom (_address s) 1 w in
  let n := to_uint8 n in
  if negb (n =? 1) then
    let s := set_error (to_int16 GY521_ERROR_READ) s in
    (to_uint8 (_error s), w, s)
  else
  let '(b, w) := Wire.read w in
  let val := to_uint8 b in
  (val, w, s).

Definition setAccelSensitivity (as_ : Z) (w : W) (s : state) : bool * W * state :=
  let s := set_afs (to_uint8 as_) s in
  let s := if 3 <? _afs s then set_afs 3 s else s in
  let '(val, w, s) := getRegister GY521_ACCEL_CONFIG w s in
  if negb (_error s =? 0) then (false, w, s) else
  let '(ok, w, s) :=
    if negb (Z.land (Z.shiftr val 3) 3 =? _afs s) then
      let val := to_uint8 (Z.land val 231) in
      let val := to_uint8 (Z.lor val (Z.shiftl (_afs s) 3)) in
      let '(r, w, s) := setRegister GY521_ACCEL_CONFIG val w s in
      (r =? GY521_OK, w, s)
    else (true, w, s) in
  if negb ok then (false, w, s) else
  let s := set_raw2g (of_int (Z.shiftl 1 (_afs s)) * RAW2G_FACTOR) s in
  (true, w, s).

Definition getAccelSensitivity (w : W) (s : state) : Z * W * state :=
  let '(val, w, s) := getRegister GY521_ACCEL_CONFIG w s in
  if negb (_error s =? GY521_OK) then (to_uint8 (_error s), w, s) else
  let s := set_afs (Z.land (Z.shiftr val 3) 3) s in
  (_afs s, w, s).

Definition setGyroSensitivity (gs : Z) (w : W) (s : state) : bool * W * state :=
  let s := set_gfs (to_uint8 gs) s in
  let s := if 3 <? _gfs s then set_gfs 3 s else s in
  let '(val, w, s) := getRegister GY521_GYRO_CONFIG w s in
  if negb (_error s =? 0) then (false, w, s) else
  let '(ok, w, s) :=
    if negb (Z.land (Z.shiftr val 3) 3 =? _gfs s) then
      let val := to_uint8 (Z.land val 231) in
      let val := to_uint8 (Z.lor val (Z.shiftl (_gfs s) 3)) in
      let '(r, w, s) := setRegister GY521_GYRO_CONFIG val w s in
      (r =? GY521_OK, w, s)
    else (true, w, s) in
  if negb ok then (false, w, s) else
  let s := set_raw2dps (of_int (Z.shiftl 1 (_gfs s)) * RAW2DPS_FACTOR) s in
  (true, w, s).

Definition getGyroSensitivity (w : W) (s : state) : Z * W * state :=
  let '(val, w, s) := getRegister GY521_GYRO_CONFIG w s in
  if negb (_error s =? GY521_OK) then (to_uint8 (_error s), w, s) else
  let s := set_gfs (Z.land (Z.shiftr val 3) 3) s in
  (_gfs s, w, s).

End Driver.

(** ** Instances for concrete runs *)

(** Exact real arithmetic as the floating-point operations.  It is the
    code's arithmetic without rounding, and only where no quotient has a zero
    denominator: the code's 0/0 is a NaN and its x/0 an infinity, where
    [Rdiv] gives 0.  The runs below that compute tilt angles are on devices
    whose accelerations make the three denominators
    [sqrt (_ax2 + _az2)], [sqrt (_ay2 + _az2)], [sqrt (_ax2 + _ay2)]
    positive. *)
#[export] Instance RealFloat : FloatOps R := {|
  of_int := IZR;
  lit := Q2R;
  fadd := Rplus;
  fmul := Rmult;
  fdiv := Rdiv
|}.

#[export] Instance RealMath : MathLib R := {|
  atan := Ratan.atan;
  sqrt := R_sqrt.sqrt;
  PI := Rtrigo1.PI
|}.

(** IEEE 754 single precision (24 bits of precision, exponents up to 128),
    every operation rounded to nearest even: the arithmetic of [float], and
    of [double] where it is a 32-bit type.  A literal is the correctly
    rounded quotient of its numerator and denominator. *)
Module Binary32.

Definition prec : Z := 24.
Definition emax : Z := 128.

Definition of_Z (z : Z) : spec_float := binary_normalize prec emax z 0 false.

Definition exact (z : Z) : spec_float :=
  match z with
  | Z0 => S754_zero false
  | Zpos p => S754_finite false p 0
  | Zneg p => S754_finite true p 0
  end.

Definition of_Q (q : Q) : spec_float :=
  SFdiv prec emax (exact (Qnum q)) (exact (Zpos (Qden q))).

End Binary32.

#[export] Instance Binary32Float : FloatOps spec_float := {|
  of_int := Binary32.of_Z;
  lit := Binary32.of_Q;
  fadd := SFadd Binary32.prec Binary32.emax;
  fmul := SFmul Binary32.prec Binary32.emax;
  fdiv := SFdiv Binary32.prec Binary32.emax
|}.

(** The values the library's headers give to the constants (the register
    addresses are those of the MPU-6050 register map). *)
Definition gy521_header : Header := {|
  GY521_THROTTLED := 1;
  GY521_ERROR_READ := -1;
  GY521_ERROR_WRITE := -2;
  GY521_THROTTLE_TIME := 10;
  GY521_PWR_MGMT_1 := 107;
  GY521_ACCEL_CONFIG := 28;
  GY521_GYRO_CONFIG := 27;
  GY521_ACCEL_XOUT_H := 59;
  GY521_TEMP_OUT_H := 65;
  GY521_GYRO_XOUT_H := 67
|}.

(** A simulated device on a simulated bus.  The device has a register file
    and a register pointer; a write transaction that is acknowledged latches
    its first byte into the pointer and stores the following bytes from there
    on; a read request fetches registers from the pointer on.  [acks] scripts
    the statuses of the coming write transactions (acknowledged once the
    script is used up), [mute] scripts whether the device sends nothing to
    each of the coming read requests, [log] records every write transaction
    with the bytes sent and the status returned. *)
Module Fake.

Record t : Type := mk {
  regs : Z -> Z;
  ptr : Z;
  tx : list Z;
  rx : list Z;
  acks : list Z;
  mute : list bool;
  now_ms : Z;
  now_us : Z;
  log : list (list Z * Z)
}.

Definition store (a v : Z) (m : Z -> Z) : Z -> Z :=
  fun x => if x =? a then v else m x.

Fixpoint store_all (a : Z) (vs : list Z) (m : Z -> Z) : Z -> Z :=
  match vs with
  | [] => m
  | v :: vs' => store_all (a + 1) vs' (store a v m)
  end.

Fixpoint fetch (m : Z -> Z) (a : Z) (n : nat) : list Z :=
  match n with
  | O => []
  | S n' => m a :: fetch m (a + 1) n'
  end.

Definition beginTransmission (addr : Z) (w : t) : t :=
  mk (regs w) (ptr w) [] (rx w) (acks w) (mute w) (now_ms w) (now_us w) (log w).

Definition write (b : Z) (w : t) : t :=
  mk (regs w) (ptr w) (tx w ++ [to_uint8 b]) (rx w) (acks w) (mute w)
     (now_ms w) (now_us w) (log w).

Definition endTransmission (w : t) : Z * t :=
  let st := hd 0 (acks w) in
  let lg := log w ++ [(tx w, st)] in
  if st =? 0 then
    match tx w with
    | [] =>
        (st, mk (regs w) (ptr w) [] (rx w) (tl (acks w)) (mute w)
                (now_ms w) (now_us w) lg)
    | r :: vs =>
        (st, mk (store_all r vs (regs w)) (r + Z.of_nat (length vs)) [] (rx w)
                (tl (acks w)) (mute w) (now_ms w) (now_us w) lg)
    end
  else
    (st, mk (regs w) (ptr w) [] (rx w) (tl (acks w)) (mute w)
            (now_ms w) (now_us w) lg).

Definition requestFrom (addr n : Z) (w : t) : Z * t :=
  if hd false (mute w) then
    (0, mk (regs w) (ptr w) (tx w) [] (acks w) (tl (mute w))
           (now_ms w) (now_us w) (log w))
  else
    (n, mk (regs w) (ptr w + n) (tx w) (fetch (regs w) (ptr w) (Z.to_nat n))
           (acks w) (tl (mute w)) (now_ms w) (now_us w) (log w)).

Definition read (w : t) : Z * t :=
  match rx w with
  | [] => (-1, w)
  | b :: bs =>
      (b, mk (regs w) (ptr w) (tx w) bs (acks w) (mute w)
             (now_ms w) (now_us w) (log w))
  end.

(** The number of logged write transactions that carry a value for the
    register [reg] (the register address and one data byte). *)
Definition register_writes (reg : Z) (lg : list (list Z * Z)) : nat :=
  length (filter (fun e => match fst e with
                           | [r; _] => r =? reg
                           | _ => false
                           end) lg).

(** A register file from its non-zero entries. *)
Fixpoint regs_of (l : list (Z * Z)) : Z -> Z :=
  match l with
  | [] => fun _ => 0
  | (a, v) :: l' => store a v (regs_of l')
  end.

End Fake.

#[export] Instance FakeWire : Wire.TwoWire Fake.t := {|
  Wire.begin := fun w => w;
  Wire.begin_pins := fun _ _ w => w;
  Wire.beginTransmission := Fake.beginTransmission;
  Wire.write := Fake.write;
  Wire.endTransmission := Fake.endTransmission;
  Wire.requestFrom := Fake.requestFrom;
  Wire.read := Fake.read
|}.

#[export] Instance FakeClock : Clock Fake.t := {|
  millis := Fake.now_ms;
  micros := Fake.now_us
|}.

(** ** Proof automation *)

(** Case analysis on the innermost test or bus answer that blocks the
    evaluation of a method body. *)
Ltac next_case :=
  match goal with
  | |- context [match ?e with _ => _ end] =>
      lazymatch e with
      | context [match _ with _ => _ end] => fail
      | negb ?b => destruct b eqn:?; cbv beta iota delta [negb]
      | _ => destruct e eqn:?; cbv beta iota delta [negb]
      end
  end.

Ltac run := repeat next_case.

(** The integer tests that the case analysis has recorded, as equations. *)
Ltac tests :=
  repeat match goal with
         | Hne : (_ =? _) = false |- _ => apply Z.eqb_neq in Hne
         | Heq : (_ =? _) = true |- _ => apply Z.eqb_eq in Heq
         end.

(** Members of an object that a chain of assignments has built. *)
Tactic Notation "members" :=
  cbv beta iota zeta delta
    [set_address set_throttleTime set_lastTime set_lastMicros set_error
     set_afs set_raw2g set_gfs set_raw2dps set_temperature
     set_accel set_accel_angle set_gyro set_gyro_angle
     set_pitch set_roll set_yaw setThrottleTime
     convert_raw_acceleration error_correct_acceleration
     prepare_pitch_roll_yaw convert_to_celsius convert_raw_gyro
     error_correct_gyro integrate_gyro pitch_roll_yaw duration_since
     _address _throttle _throttleTime _lastTime _lastMicros _error
     _afs _raw2g _ax _ay _az _aax _aay _aaz
     _gfs _raw2dps _gx _gy _gz _gax _gay _gaz
     _pitch _roll _yaw _temperature axe aye aze gxe gye gze
     fst snd].

Tactic Notation "members" "in" hyp(E) :=
  cbv beta iota zeta delta
    [set_address set_throttleTime set_lastTime set_lastMicros set_error
     set_afs set_raw2g set_gfs set_raw2dps set_temperature
     set_accel set_accel_angle set_gyro set_gyro_angle
     set_pitch set_roll set_yaw setThrottleTime
     convert_raw_acceleration error_correct_acceleration
     prepare_pitch_roll_yaw convert_to_celsius convert_raw_gyro
     error_correct_gyro integrate_gyro pitch_roll_yaw duration_since
     _address _throttle _throttleTime _lastTime _lastMicros _error
     _afs _raw2g _ax _ay _az _aax _aay _aaz
     _gfs _raw2dps _gx _gy _gz _gax _gay _gaz
     _pitch _roll _yaw _temperature axe aye aze gxe gye gze
     fst snd] in E.

(** ** Properties of the driver, for every bus and every arithmetic *)

Section Properties.

Context {F : Type} {FO : FloatOps F} {ML : MathLib F}.
Context {W : Type} {TW : Wire.TwoWire W} {CK : Clock W}.
Context {H : Header}.

Local Open Scope flt_scope.

Local Abbreviation state := (GY521 F).

(** The status codes of the header are told apart once they are stored in, or
    returned as, an [int16_t]. *)
Definition status_codes_distinct : Prop :=
  to_int16 GY521_THROTTLED <> GY521_OK /\
  to_int16 GY521_ERROR_READ <> GY521_OK /\
  to_int16 GY521_ERROR_WRITE <> GY521_OK /\
  to_int16 GY521_ERROR_READ <> to_int16 GY521_THROTTLED /\
  to_int16 GY521_ERROR_WRITE <> to_int16 GY521_THROTTLED /\
  to_int16 GY521_ERROR_READ <> to_int16 GY521_ERROR_WRITE.

(** *** What the bus answers *)

(** A write transaction to the device at [addr]: [beginTransmission], one
    [write] per byte, [endTransmission]. *)
Definition transmit (addr : Z) (bytes : list Z) (w : W) : Z * W :=
  Wire.endTransmission
    (fold_left (fun w b => Wire.write b w) bytes
               (Wire.beginTransmission addr w)).

(** The transaction that selects register [reg], and the request for [n]
    bytes that follows it. *)
Definition select (addr reg : Z) (w : W) : Z * W := transmit addr [reg] w.

Definition burst (addr reg n : Z) (w : W) : Z * W :=
  Wire.requestFrom addr n (snd (select addr reg w)).

(** How a select-then-request exchange ends: the select is not acknowledged,
    the byte count comes back different from the one requested, or the
    exchange completes.  [narrow] is the conversion to the type of the local
    variable that receives the count ([int8_t] or [uint8_t]). *)
Inductive exchange : Type :=
  | not_acknowledged
  | wrong_count
  | complete.

Definition exchange_of (narrow : Z -> Z) (addr reg n : Z) (w : W) : exchange :=
  if fst (select addr reg w) =? 0 then
    if narrow (fst (burst addr reg n w)) =? n then complete else wrong_count
  else not_acknowledged.

(** The last-error member after an exchange that ended as [x], started with
    the member holding [e]. *)
Definition error_after (x : exchange) (e : Z) : Z :=
  match x with
  | not_acknowledged => to_int16 GY521_ERROR_WRITE
  | wrong_count => to_int16 GY521_ERROR_READ
  | complete => e
  end.

(** [_afs > 3 ? 3 : _afs] *)
Definition clamp3 (z : Z) : Z := if 3 <? z then 3 else z.

(** *** Proof automation for the bus answers *)

(** The same for the bus: the answers named above, written as the method
    bodies write them. *)
Ltac answers :=
  cbv beta iota zeta delta
    [exchange_of error_after burst select transmit fold_left fst snd] in *.

(** *** Throttling *)

(** C7: with throttling enabled and less than the throttle interval elapsed
    since the stored timestamp, [read], [readAccel] and [readGyro] return
    THROTTLED and hand back the world and the whole driver object as they
    received them: no bus method is called, no member is written. *)
Theorem throttled_reads_skip (w : W) (s : state) :
  _throttle s = true ->
  to_uint32 (to_uint32 (millis w) - _lastTime s) < _throttleTime s ->
  read w s = (to_int16 GY521_THROTTLED, w, s) /\
  readAccel w s = (to_int16 GY521_THROTTLED, w, s) /\
  readGyro w s = (to_int16 GY521_THROTTLED, w, s).
Proof.
  intros Hon Hlt.
  assert (Ht : throttled (to_uint32 (millis w)) s = true).
  { unfold throttled. rewrite Hon. cbn [andb]. now apply Z.ltb_lt. }
  unfold read, readAccel, readGyro. rewrite Ht. repeat split.
Qed.

(** *** The full read *)

(** C1 (as the code has it): after a full read that returns OK, yaw is the
    Z gyro-integrated angle, pitch is 0.96 times the Y gyro-integrated angle
    plus 0.04 times the tilt angle [_aay], and roll is 0.96 times the X
    gyro-integrated angle plus 0.04 times the tilt angle [_aax]; where [_aay]
    is the angle of minus x over the y-z plane (the specification's tiltX)
    and [_aax] the angle of y over the x-z plane (its tiltY), both from the
    accelerations the same read has stored.  So each fused angle takes the
    tilt angle the specification gives it, and the gyro angle of the other
    axis. *)
Theorem read_ok_fusion (w w' : W) (s s' : state) :
  status_codes_distinct ->
  read w s = (GY521_OK, w', s') ->
  _yaw s' = _gaz s' /\
  _pitch s' = lit (96 # 100) * _gay s' + lit (4 # 100) * _aay s' /\
  _roll s' = lit (96 # 100) * _gax s' + lit (4 # 100) * _aax s' /\
  _aay s' =
    atan (lit (-1) * _ax s' / sqrt (_ay s' * _ay s' + _az s' * _az s'))
      * RAD2DEGREES /\
  _aax s' =
    atan (_ay s' / sqrt (_ax s' * _ax s' + _az s' * _az s')) * RAD2DEGREES.
Proof.
  intros (Hth & Hrd & Hwr & _) E. destruct s.
  unfold read in E. members in E. revert E.
  run; intros E; injection E; intros;
    first [ exfalso; solve [auto] | subst s'; members; repeat split ].
Qed.

(** A full read that returns OK has converted the words it fetched: each
    acceleration is the raw word times [_raw2g] plus the bias, each angular
    rate the raw word times [_raw2dps] plus the bias, the temperature the raw
    word times 0.00294117647 plus 36.53, and each gyro angle has advanced by
    the rate times the duration since [_lastMicros]. *)
Lemma read_ok_conversions (w w' : W) (s s' : state) :
  status_codes_distinct ->
  read w s = (GY521_OK, w', s') ->
  exists rax ray raz rt rgx rgy rgz : Z,
    _ax s' = of_int rax * _raw2g s + axe s /\
    _ay s' = of_int ray * _raw2g s + aye s /\
    _az s' = of_int raz * _raw2g s + aze s /\
    _temperature s' =
      of_int rt * lit (294117647 # 100000000000) + lit (3653 # 100) /\
    _gx s' = of_int rgx * _raw2dps s + gxe s /\
    _gy s' = of_int rgy * _raw2dps s + gye s /\
    _gz s' = of_int rgz * _raw2dps s + gze s /\
    _lastMicros s' = to_uint32 (micros w') /\
    _gax s' = _gax s + _gx s' * duration_since (_lastMicros s') s /\
    _gay s' = _gay s + _gy s' * duration_since (_lastMicros s') s /\
    _gaz s' = _gaz s + _gz s' * duration_since (_lastMicros s') s.
Proof.
  intros (Hth & Hrd & Hwr & _) E. destruct s.
  unfold read in E. members in E. revert E.
  run; intros E; injection E; intros;
    first [ exfalso; solve [auto] | subst s' w' ].
  members. do 7 eexists. repeat split.
Qed.

(** *** The partial reads *)

(** C2 (as the code has it): a gyro-only read that returns OK converts the
    three angular rates and integrates them into the gyro angles, using and
    updating [_lastMicros]; it leaves pitch, roll and yaw, and the tilt angles,
    as they were: the fusion is done by the full read only. *)
Theorem readGyro_ok_no_fusion (w w' : W) (s s' : state) :
  status_codes_distinct ->
  readGyro w s = (GY521_OK, w', s') ->
  (exists rgx rgy rgz : Z,
     _gx s' = of_int rgx * _raw2dps s + gxe s /\
     _gy s' = of_int rgy * _raw2dps s + gye s /\
     _gz s' = of_int rgz * _raw2dps s + gze s) /\
  _lastMicros s' = to_uint32 (micros w') /\
  _gax s' = _gax s + _gx s' * duration_since (_lastMicros s') s /\
  _gay s' = _gay s + _gy s' * duration_since (_lastMicros s') s /\
  _gaz s' = _gaz s + _gz s' * duration_since (_lastMicros s') s /\
  _pitch s' = _pitch s /\ _roll s' = _roll s /\ _yaw s' = _yaw s /\
  _aax s' = _aax s /\ _aay s' = _aay s /\ _aaz s' = _aaz s.
Proof.
  intros (Hth & Hrd & Hwr & _) E. destruct s.
  unfold readGyro in E. members in E. revert E.
  run; intros E; injection E; intros;
    first [ exfalso; solve [auto] | subst s' w' ].
  members. split; [ do 3 eexists | ]; repeat split.
Qed.

(** An accelerometer-only read that returns OK converts the accelerations
    and leaves the gyro members, the integration reference, the temperature
    and pitch, roll, yaw as they were. *)
Lemma readAccel_ok_frame (w w' : W) (s s' : state) :
  status_codes_distinct ->
  readAccel w s = (GY521_OK, w', s') ->
  (exists rax ray raz : Z,
     _ax s' = of_int rax * _raw2g s + axe s /\
     _ay s' = of_int ray * _raw2g s + aye s /\
     _az s' = of_int raz * _raw2g s + aze s) /\
  _gx s' = _gx s /\ _gy s' = _gy s /\ _gz s' = _gz s /\
  _gax s' = _gax s /\ _gay s' = _gay s /\ _gaz s' = _gaz s /\
  _lastMicros s' = _lastMicros s /\ _temperature s' = _temperature s /\
  _pitch s' = _pitch s /\ _roll s' = _roll s /\ _yaw s' = _yaw s.
Proof.
  intros (Hth & Hrd & Hwr & _) E. destruct s.
  unfold readAccel in E. members in E. revert E.
  run; intros E; injection E; intros;
    first [ exfalso; solve [auto] | subst s' w' ].
  members. split; [ do 3 eexists | ]; repeat split.
Qed.

(** A temperature-only read that returns OK stores the word it fetched,
    converted to floating point and nothing more. *)
Lemma readTemperature_ok_raw (w w' : W) (s s' : state) :
  status_codes_distinct ->
  readTemperature w s = (GY521_OK, w', s') ->
  _temperature s' =
    of_int (fst (_WireRead2 (snd (burst (_address s) GY521_TEMP_OUT_H 2 w)))).
Proof.
  intros (Hth & Hrd & Hwr & _) E. destruct s.
  unfold readTemperature in E. members in E. cbn [_address]. answers.
  revert E.
  run; intros E; injection E; intros;
    first [ exfalso; solve [auto] | subst s' w' ].
  reflexivity.
Qed.

(** *** Reset *)

(** [reset] zeroes the accelerations, the tilt angles, the angular rates and
    pitch, roll, yaw, sets the throttle time, and assigns nothing else: the
    gyro angles and the temperature keep their values. *)
Lemma reset_members (s : state) :
  let s' := reset s in
  (_ax s' = of_int 0 /\ _ay s' = of_int 0 /\ _az s' = of_int 0) /\
  (_aax s' = of_int 0 /\ _aay s' = of_int 0 /\ _aaz s' = of_int 0) /\
  (_gx s' = of_int 0 /\ _gy s' = of_int 0 /\ _gz s' = of_int 0) /\
  (_pitch s' = of_int 0 /\ _roll s' = of_int 0 /\ _yaw s' = of_int 0) /\
  _throttleTime s' = to_uint16 GY521_THROTTLE_TIME /\
  (_gax s' = _gax s /\ _gay s' = _gay s /\ _gaz s' = _gaz s) /\
  _temperature s' = _temperature s /\
  _lastTime s' = _lastTime s /\ _lastMicros s' = _lastMicros s /\
  _throttle s' = _throttle s /\ _error s' = _error s.
Proof.
  destruct s. unfold reset. members. repeat split.
Qed.

(** *** The last error and the throttle timestamp *)

(** C5 (as the code has it): the last-error member is assigned only when a bus
    exchange fails.  After [getRegister], [setRegister], [readTemperature],
    [read], [readAccel] or [readGyro] it holds the WRITE error code when the
    write transaction was not acknowledged, the READ error code when the byte
    count came back wrong, and otherwise (the exchange completed, or the read
    was throttled) the value it had before the call. *)
Theorem last_error_after_bus_operation (w : W) (s : state) (reg value : Z) :
  let addr := _address s in
  let now := to_uint32 (millis w) in
  _error (snd (getRegister reg w s)) =
    error_after (exchange_of to_uint8 addr reg 1 w) (_error s) /\
  _error (snd (setRegister reg value w s)) =
    (if fst (transmit addr [reg; value] w) =? 0 then _error s
     else to_int16 GY521_ERROR_WRITE) /\
  _error (snd (readTemperature w s)) =
    error_after (exchange_of to_int8 addr GY521_TEMP_OUT_H 2 w) (_error s) /\
  _error (snd (read w s)) =
    (if throttled now s then _error s
     else error_after (exchange_of to_int8 addr GY521_ACCEL_XOUT_H 14 w)
                      (_error s)) /\
  _error (snd (readAccel w s)) =
    (if throttled now s then _error s
     else error_after (exchange_of to_int8 addr GY521_ACCEL_XOUT_H 6 w)
                      (_error s)) /\
  _error (snd (readGyro w s)) =
    (if throttled now s then _error s
     else error_after (exchange_of to_int8 addr GY521_GYRO_XOUT_H 6 w)
                      (_error s)).
Proof.
  destruct s.
  unfold getRegister, setRegister, readTemperature, read, readAccel, readGyro.
  answers. members. repeat split; run; reflexivity.
Qed.

(** C6 (as the code has it): the throttle timestamp records every read that
    is not throttled.  [read], [readAccel] and [readGyro] store the current
    [millis()] in [_lastTime] before they touch the bus, so the member holds
    it whether the exchange then completes or fails; only a throttled call
    leaves it as it was. *)
Theorem lastTime_after_read (w : W) (s : state) :
  let now := to_uint32 (millis w) in
  _lastTime (snd (read w s)) = (if throttled now s then _lastTime s else now) /\
  _lastTime (snd (readAccel w s)) =
    (if throttled now s then _lastTime s else now) /\
  _lastTime (snd (readGyro w s)) =
    (if throttled now s then _lastTime s else now).
Proof.
  destruct s. unfold read, readAccel, readGyro. members.
  repeat split; run; reflexivity.
Qed.

(** *** Sensitivity *)

(** The value [getRegister] hands back when the exchange completes, and the
    world it leaves. *)
Lemma getRegister_complete (reg : Z) (w : W) (s : state) :
  exchange_of to_uint8 (_address s) reg 1 w = complete ->
  getRegister reg w s =
    (to_uint8 (fst (Wire.read (snd (burst (_address s) reg 1 w)))),
     snd (Wire.read (snd (burst (_address s) reg 1 w))), s).
Proof.
  destruct s. unfold getRegister. cbn [_address]. answers.
  run; intros E; try discriminate E; reflexivity.
Qed.

(** A sensitivity setter that returns [true] has stored the clamped code and
    the scale factor [(1 << code) * factor]. *)
Lemma setAccelSensitivity_true (as_ : Z) (w w' : W) (s s' : state) :
  setAccelSensitivity as_ w s = (true, w', s') ->
  _afs s' = clamp3 (to_uint8 as_) /\
  _raw2g s' = of_int (Z.shiftl 1 (clamp3 (to_uint8 as_))) * RAW2G_FACTOR.
Proof.
  intros E. destruct s.
  unfold setAccelSensitivity, getRegister, setRegister in E.
  members in E. revert E. unfold clamp3.
  run; intros E; try discriminate E; injection E; intros; subst s';
    members; split; reflexivity.
Qed.

Lemma setGyroSensitivity_true (gs : Z) (w w' : W) (s s' : state) :
  setGyroSensitivity gs w s = (true, w', s') ->
  _gfs s' = clamp3 (to_uint8 gs) /\
  _raw2dps s' = of_int (Z.shiftl 1 (clamp3 (to_uint8 gs))) * RAW2DPS_FACTOR.
Proof.
  intros E. destruct s.
  unfold setGyroSensitivity, getRegister, setRegister in E.
  members in E. revert E. unfold clamp3.
  run; intros E; try discriminate E; injection E; intros; subst s';
    members; split; reflexivity.
Qed.

(** C10: when the exchange that reads the configuration register fails (the
    select is not acknowledged, or the byte count is wrong),
    [setAccelSensitivity] and [setGyroSensitivity] return [false] and leave
    the scale factor as it was, while the cached sensitivity code already
    holds the clamped argument. *)
Theorem sensitivity_setter_bus_error (c : Z) (w : W) (s : state) :
  status_codes_distinct ->
  (exchange_of to_uint8 (_address s) GY521_ACCEL_CONFIG 1 w <> complete ->
   let '(r, _, s') := setAccelSensitivity c w s in
   r = false /\ _raw2g s' = _raw2g s /\ _afs s' = clamp3 (to_uint8 c)) /\
  (exchange_of to_uint8 (_address s) GY521_GYRO_CONFIG 1 w <> complete ->
   let '(r, _, s') := setGyroSensitivity c w s in
   r = false /\ _raw2dps s' = _raw2dps s /\ _gfs s' = clamp3 (to_uint8 c)).
Proof.
  intros (_ & Hrd & Hwr & _). unfold GY521_OK in Hrd, Hwr.
  apply Z.eqb_neq in Hrd, Hwr. destruct s.
  unfold setAccelSensitivity, setGyroSensitivity, getRegister, clamp3.
  cbn [_address]. answers. members.
  split; intros Hx; run; try (exfalso; apply Hx; reflexivity);
    try discriminate; repeat split.
Qed.

(** When the exchange completes, no error is pending and the field read back
    (bits 3-4) already holds the clamped code, the setter calls nothing on the
    bus after [getRegister]: the world it leaves is the world [getRegister]
    leaves. *)
Lemma setAccelSensitivity_same_field (as_ : Z) (w : W) (s : state) :
  _error s = 0 ->
  exchange_of to_uint8 (_address s) GY521_ACCEL_CONFIG 1 w = complete ->
  Z.land (Z.shiftr (fst (fst (getRegister GY521_ACCEL_CONFIG w s))) 3) 3 =
    clamp3 (to_uint8 as_) ->
  fst (setAccelSensitivity as_ w s) =
    (true, snd (fst (getRegister GY521_ACCEL_CONFIG w s))).
Proof.
  destruct s. cbn [_error _address]. intros ->.
  unfold setAccelSensitivity, getRegister, clamp3.
  answers. members.
  run; intros Hx Hm; try discriminate Hx; tests; congruence.
Qed.

Lemma setGyroSensitivity_same_field (gs : Z) (w : W) (s : state) :
  _error s = 0 ->
  exchange_of to_uint8 (_address s) GY521_GYRO_CONFIG 1 w = complete ->
  Z.land (Z.shiftr (fst (fst (getRegister GY521_GYRO_CONFIG w s))) 3) 3 =
    clamp3 (to_uint8 gs) ->
  fst (setGyroSensitivity gs w s) =
    (true, snd (fst (getRegister GY521_GYRO_CONFIG w s))).
Proof.
  destruct s. cbn [_error _address]. intros ->.
  unfold setGyroSensitivity, getRegister, clamp3.
  answers. members.
  run; intros Hx Hm; try discriminate Hx; tests; congruence.
Qed.

End Properties.

(** ** Scale factors, in exact real arithmetic and in single precision *)

Section Scale.

Context {W : Type} {TW : Wire.TwoWire W} {H : Header}.

Local Open Scope flt_scope.

Lemma clamp3_code (c : Z) : 0 <= c <= 3 -> clamp3 (to_uint8 c) = c.
Proof.
  intros Hc. unfold clamp3, to_uint8. rewrite Z.mod_small by lia.
  destruct (3 <? c) eqn:E; [ apply Z.ltb_lt in E; lia | reflexivity ].
Qed.

(** C8: for a sensitivity code [c] in 0..3, once [setAccelSensitivity c] has
    returned [true], the block that converts raw acceleration to g's turns
    the raw value 16384 into exactly [1 << c] on each axis (the bias is added
    by the block after it); and once [setGyroSensitivity c] has returned
    [true], the block that converts raw gyro to degrees per second turns the
    raw value 131 into exactly [1 << c].  Both hold in exact real arithmetic
    and in IEEE single precision. *)
Theorem sensitivity_scale_exact (c : Z) :
  0 <= c <= 3 ->
  (forall (w w' : W) (s s' : GY521 R),
     (setAccelSensitivity c w s = (true, w', s') ->
      let raw := set_accel (of_int 16384) (of_int 16384) (of_int 16384) s' in
      _ax (convert_raw_acceleration raw) = of_int (Z.shiftl 1 c) /\
      _ay (convert_raw_acceleration raw) = of_int (Z.shiftl 1 c) /\
      _az (convert_raw_acceleration raw) = of_int (Z.shiftl 1 c)) /\
     (setGyroSensitivity c w s = (true, w', s') ->
      let raw := set_gyro (of_int 131) (of_int 131) (of_int 131) s' in
      _gx (convert_raw_gyro raw) = of_int (Z.shiftl 1 c) /\
      _gy (convert_raw_gyro raw) = of_int (Z.shiftl 1 c) /\
      _gz (convert_raw_gyro raw) = of_int (Z.shiftl 1 c))) /\
  (forall (w w' : W) (s s' : GY521 spec_float),
     (setAccelSensitivity c w s = (true, w', s') ->
      let raw := set_accel (of_int 16384) (of_int 16384) (of_int 16384) s' in
      _ax (convert_raw_acceleration raw) = of_int (Z.shiftl 1 c) /\
      _ay (convert_raw_acceleration raw) = of_int (Z.shiftl 1 c) /\
      _az (convert_raw_acceleration raw) = of_int (Z.shiftl 1 c)) /\
     (setGyroSensitivity c w s = (true, w', s') ->
      let raw := set_gyro (of_int 131) (of_int 131) (of_int 131) s' in
      _gx (convert_raw_gyro raw) = of_int (Z.shiftl 1 c) /\
      _gy (convert_raw_gyro raw) = of_int (Z.shiftl 1 c) /\
      _gz (convert_raw_gyro raw) = of_int (Z.shiftl 1 c))).
Proof.
  intros Hc. pose proof (clamp3_code c Hc) as Hk.
  assert (Hcases : c = 0 \/ c = 1 \/ c = 2 \/ c = 3) by lia.
  split; intros w w' s s'; split; intros E.
  - apply setAccelSensitivity_true in E. destruct E as [_ Hr].
    rewrite Hk in Hr. destruct s'. cbn in Hr. subst. cbn.
    destruct Hcases as [-> | [-> | [-> | ->]]]; cbn;
      unfold Q2R; cbn; repeat split; field.
  - apply setGyroSensitivity_true in E. destruct E as [_ Hr].
    rewrite Hk in Hr. destruct s'. cbn in Hr. subst. cbn.
    destruct Hcases as [-> | [-> | [-> | ->]]]; cbn;
      unfold Q2R; cbn; repeat split; field.
  - apply setAccelSensitivity_true in E. destruct E as [_ Hr].
    rewrite Hk in Hr. destruct s'. cbn [_raw2g] in Hr. subst.
    destruct Hcases as [-> | [-> | [-> | ->]]];
      vm_compute; repeat split.
  - apply setGyroSensitivity_true in E. destruct E as [_ Hr].
    rewrite Hk in Hr. destruct s'. cbn [_raw2dps] in Hr. subst.
    destruct Hcases as [-> | [-> | [-> | ->]]];
      vm_compute; repeat split.
Qed.

End Scale.

(** ** The sensitivity setters on the simulated device *)

Section FakeBus.

Context {F : Type} {FO : FloatOps F} {H : Header}.

(** The write transactions the bus has seen that carry a value for the
    register [reg]. *)
Definition config_writes (reg : Z) (w : Fake.t) : nat :=
  Fake.register_writes (to_uint8 reg) (Fake.log w).

(** Bits 3-4 of a configuration byte after [val &= 0xE7; val |= (code << 3)]
    hold the code. *)
Lemma sensitivity_field_set (v code : Z) :
  0 <= code <= 3 ->
  Z.land
    (Z.shiftr (to_uint8 (Z.lor (to_uint8 (Z.land v 231)) (Z.shiftl code 3))) 3)
    3 = code.
Proof.
  intros Hc. unfold to_uint8. change 256 with (2 ^ 8).
  apply Z.bits_inj'. intros n Hn.
  rewrite Z.land_spec, Z.shiftr_spec by lia.
  rewrite Z.testbit_mod_pow2 by lia.
  rewrite Z.lor_spec, Z.testbit_mod_pow2 by lia.
  rewrite Z.land_spec, Z.shiftl_spec by lia.
  replace (n + 3 - 3) with n by lia.
  assert (Hn' : n = 0 \/ n = 1 \/ 2 <= n) by lia.
  destruct Hn' as [-> | [-> | Hge]].
  - cbn. now rewrite andb_false_r, andb_true_r.
  - cbn. now rewrite andb_false_r, andb_true_r.
  - assert (H3 : Z.testbit 3 n = false).
    { apply Z.bits_above_log2; [ lia | ]. change (Z.log2 3) with 1. lia. }
    assert (Hcode : Z.testbit code n = false).
    { apply Z.bits_above_log2; [ lia | ].
      assert (Hcases : code = 0 \/ code = 1 \/ code = 2 \/ code = 3) by lia.
      destruct Hcases as [-> | [-> | [-> | ->]]]; cbn; lia. }
    now rewrite H3, Hcode, andb_false_r.
Qed.

(** The simulated bus, method by method. *)
Ltac fake_bus :=
  cbv beta iota zeta delta
    [Wire.beginTransmission Wire.write Wire.endTransmission Wire.requestFrom
     Wire.read FakeWire
     Fake.beginTransmission Fake.write Fake.endTransmission Fake.requestFrom
     Fake.read Fake.regs Fake.ptr Fake.tx Fake.rx Fake.acks Fake.mute
     Fake.now_ms Fake.now_us Fake.log Fake.store_all Fake.fetch
     config_writes hd tl app Z.to_nat Pos.to_nat Pos.iter_op Init.Nat.add].

(** A recorded test that fails on closed terms. *)
Ltac absurd_test :=
  try match goal with
      | Hne : ?a <> ?b |- _ => exfalso; apply Hne; reflexivity
      end.

Lemma register_writes_snoc (r : Z) (l : list (list Z * Z)) (e : list Z * Z) :
  Fake.register_writes r (l ++ [e]) =
    (Fake.register_writes r l +
     match fst e with
     | [x; _] => if Z.eqb x r then 1 else 0
     | _ => 0
     end)%nat.
Proof.
  unfold Fake.register_writes. rewrite filter_app, length_app. f_equal.
  cbn [filter]. destruct (fst e) as [| x [| y [| z t]]]; cbn; try reflexivity.
  destruct (x =? r); reflexivity.
Qed.

(** The next exchange on the simulated bus completes: the write transaction
    is acknowledged and the device is not mute. *)
Definition next_exchange_completes (w : Fake.t) : bool :=
  (hd 0 (Fake.acks w) =? 0) && negb (hd false (Fake.mute w)).

(** [getRegister] on the simulated device: it writes no register; when the
    exchange completes it returns the register and leaves the object as it
    was, otherwise it leaves a non-zero last error. *)
Lemma fake_getRegister (reg r : Z) (w : Fake.t) (s : GY521 F) :
  status_codes_distinct ->
  let '(v, w', s') := getRegister reg w s in
  config_writes r w' = config_writes r w /\
  Fake.regs w' = Fake.regs w /\
  (if next_exchange_completes w
   then s' = s /\ v = to_uint8 (Fake.regs w (to_uint8 reg))
   else _error s' <> 0 /\ _afs s' = _afs s /\ _gfs s' = _gfs s /\
        _raw2g s' = _raw2g s /\ _raw2dps s' = _raw2dps s /\
        _address s' = _address s).
Proof.
  intros (_ & Hrd & Hwr & _). unfold GY521_OK in Hrd, Hwr.
  destruct s, w. unfold getRegister, next_exchange_completes.
  members. fake_bus. change (to_uint8 1) with 1.
  run; rewrite ?register_writes_snoc; cbn [fst length Z.of_nat];
    rewrite ?Nat.add_0_r, ?Z.add_0_r;
    tests; absurd_test; try lia; repeat split; try assumption;
    try discriminate.
Qed.

Lemma store_same (a v : Z) (m : Z -> Z) : Fake.store a v m a = v.
Proof. unfold Fake.store. now rewrite Z.eqb_refl. Qed.

(** [setRegister] on the simulated device: one more write transaction for
    the register; when it is acknowledged the register holds the byte and the
    object is as it was, otherwise the last error is not zero. *)
Lemma fake_setRegister (reg val : Z) (w : Fake.t) (s : GY521 F) :
  status_codes_distinct ->
  let '(r, w', s') := setRegister reg val w s in
  config_writes reg w' = S (config_writes reg w) /\
  ((r = GY521_OK /\ s' = s /\ Fake.regs w' (to_uint8 reg) = to_uint8 val) \/
   (_error s' <> 0 /\ _afs s' = _afs s /\ _gfs s' = _gfs s /\
    _raw2g s' = _raw2g s /\ _raw2dps s' = _raw2dps s)).
Proof.
  intros (_ & Hrd & Hwr & _). unfold GY521_OK in *.
  destruct s, w. unfold setRegister.
  members. fake_bus.
  run; rewrite ?register_writes_snoc; cbn [fst length Z.of_nat];
    rewrite ?Z.eqb_refl, ?store_same;
    try discriminate; (split; [ lia | ]); tests; absurd_test;
    first [ left; repeat split; reflexivity
          | right; repeat split; assumption ].
Qed.

(** Bits 3-4 of a configuration byte: [(val >> 3) & 3]. *)
Definition sensitivity_field (val : Z) : Z := Z.land (Z.shiftr val 3) 3.

(** Nothing is left to write for the code [k]: an error is pending, or the
    next exchange will read back a byte whose field holds [k]. *)
Definition settled (reg k : Z) (w : Fake.t) (s : GY521 F) : Prop :=
  _error s <> 0 \/
  (next_exchange_completes w = true ->
   sensitivity_field (to_uint8 (Fake.regs w (to_uint8 reg))) = k).

Lemma clamp3_range (z : Z) : 0 <= clamp3 (to_uint8 z) <= 3.
Proof.
  unfold clamp3, to_uint8. pose proof (Z.mod_pos_bound z 256).
  destruct (3 <? z mod 256) eqn:E; [ lia | apply Z.ltb_ge in E; lia ].
Qed.

Lemma to_uint8_idem (z : Z) : to_uint8 (to_uint8 z) = to_uint8 z.
Proof. unfold to_uint8. apply Z.mod_mod. lia. Qed.

(** One call of [setAccelSensitivity] on the simulated device: at most one write
    to the configuration register, none when nothing was left to write, and
    nothing left to write afterwards. *)
Lemma fake_setAccelSensitivity (c : Z) (w : Fake.t) (s : GY521 F) :
  status_codes_distinct ->
  let k := clamp3 (to_uint8 c) in
  let '(_, w', s') := setAccelSensitivity c w s in
  (config_writes GY521_ACCEL_CONFIG w'
   <= S (config_writes GY521_ACCEL_CONFIG w))%nat /\
  (settled GY521_ACCEL_CONFIG k w s ->
   config_writes GY521_ACCEL_CONFIG w' = config_writes GY521_ACCEL_CONFIG w) /\
  settled GY521_ACCEL_CONFIG k w' s'.
Proof.
  intros Hd k. pose proof (clamp3_range c) as Hk. fold k in Hk.
  unfold setAccelSensitivity.
  set (s0 := if 3 <? _afs (set_afs (to_uint8 c) s)
             then set_afs 3 (set_afs (to_uint8 c) s)
             else set_afs (to_uint8 c) s).
  assert (He0 : _error s0 = _error s).
  { destruct s. subst s0. members. run; reflexivity. }
  assert (Ha0 : _afs s0 = k).
  { destruct s. subst s0 k. unfold clamp3. members. run; reflexivity. }
  pose proof (fake_getRegister GY521_ACCEL_CONFIG GY521_ACCEL_CONFIG w s0 Hd)
    as G.
  destruct (getRegister GY521_ACCEL_CONFIG w s0) as [[val w1] s1].
  destruct G as (Gw & Gr & Gs).
  unfold settled. rewrite <- He0.
  destruct (next_exchange_completes w) eqn:Ec.
  - destruct Gs as [-> ->].
    destruct (_error s0 =? 0) eqn:Ee; cbn [negb].
    + apply Z.eqb_eq in Ee. rewrite Ha0.
      fold (sensitivity_field
              (to_uint8 (Fake.regs w (to_uint8 GY521_ACCEL_CONFIG)))).
      destruct (sensitivity_field _ =? k) eqn:Ef; cbn [negb].
      * apply Z.eqb_eq in Ef.
        split; [ lia | ]. split; [ intros _; exact Gw | ].
        right. intros _. rewrite Gr. exact Ef.
      * apply Z.eqb_neq in Ef.
        match goal with
        | |- context [setRegister ?r ?v ?x ?y] =>
            pose proof (fake_setRegister r v x y Hd) as S;
            destruct (setRegister r v x y) as [[r2 w2] s2]
        end.
        destruct S as (Sw & [(-> & -> & Sr) | (Se & _)]).
        -- cbn [Z.eqb GY521_OK negb].
           split; [ lia | ].
           split; [ intros [Hp | Hp]; [ contradiction | ];
                    exfalso; apply Ef; apply Hp; reflexivity | ].
           right. intros _. rewrite Sr, !to_uint8_idem.
           apply sensitivity_field_set. exact Hk.
        -- destruct (r2 =? GY521_OK); cbn [negb];
             (split; [ lia | ]);
             (split; [ intros [Hp | Hp]; [ contradiction | ];
                       exfalso; apply Ef; apply Hp; reflexivity | ]);
             left; destruct s2; exact Se.
    + apply Z.eqb_neq in Ee.
      split; [ lia | ]. split; [ intros _; exact Gw | ]. left. exact Ee.
  - destruct Gs as (Ge & _).
    destruct (_error s1 =? 0) eqn:Ee;
      [ apply Z.eqb_eq in Ee; contradiction | cbn [negb] ].
    split; [ lia | ]. split; [ intros _; exact Gw | ]. left. exact Ge.
Qed.

(** One call of [setGyroSensitivity] on the simulated device: at most one write
    to the configuration register, none when nothing was left to write, and
    nothing left to write afterwards. *)
Lemma fake_setGyroSensitivity (c : Z) (w : Fake.t) (s : GY521 F) :
  status_codes_distinct ->
  let k := clamp3 (to_uint8 c) in
  let '(_, w', s') := setGyroSensitivity c w s in
  (config_writes GY521_GYRO_CONFIG w'
   <= S (config_writes GY521_GYRO_CONFIG w))%nat /\
  (settled GY521_GYRO_CONFIG k w s ->
   config_writes GY521_GYRO_CONFIG w' = config_writes GY521_GYRO_CONFIG w) /\
  settled GY521_GYRO_CONFIG k w' s'.
Proof.
  intros Hd k. pose proof (clamp3_range c) as Hk. fold k in Hk.
  unfold setGyroSensitivity.
  set (s0 := if 3 <? _gfs (set_gfs (to_uint8 c) s)
             then set_gfs 3 (set_gfs (to_uint8 c) s)
             else set_gfs (to_uint8 c) s).
  assert (He0 : _error s0 = _error s).
  { destruct s. subst s0. members. run; reflexivity. }
  assert (Ha0 : _gfs s0 = k).
  { destruct s. subst s0 k. unfold clamp3. members. run; reflexivity. }
  pose proof (fake_getRegister GY521_GYRO_CONFIG GY521_GYRO_CONFIG w s0 Hd)
    as G.
  destruct (getRegister GY521_GYRO_CONFIG w s0) as [[val w1] s1].
  destruct G as (Gw & Gr & Gs).
  unfold settled. rewrite <- He0.
  destruct (next_exchange_completes w) eqn:Ec.
  - destruct Gs as [-> ->].
    destruct (_error s0 =? 0) eqn:Ee; cbn [negb].
    + apply Z.eqb_eq in Ee. rewrite Ha0.
      fold (sensitivity_field
              (to_uint8 (Fake.regs w (to_uint8 GY521_GYRO_CONFIG)))).
      destruct (sensitivity_field _ =? k) eqn:Ef; cbn [negb].
      * apply Z.eqb_eq in Ef.
        split; [ lia | ]. split; [ intros _; exact Gw | ].
        right. intros _. rewrite Gr. exact Ef.
      * apply Z.eqb_neq in Ef.
        match goal with
        | |- context [setRegister ?r ?v ?x ?y] =>
            pose proof (fake_setRegister r v x y Hd) as S;
            destruct (setRegister r v x y) as [[r2 w2] s2]
        end.
        destruct S as (Sw & [(-> & -> & Sr) | (Se & _)]).
        -- cbn [Z.eqb GY521_OK negb].
           split; [ lia | ].
           split; [ intros [Hp | Hp]; [ contradiction | ];
                    exfalso; apply Ef; apply Hp; reflexivity | ].
           right. intros _. rewrite Sr, !to_uint8_idem.
           apply sensitivity_field_set. exact Hk.
        -- destruct (r2 =? GY521_OK); cbn [negb];
             (split; [ lia | ]);
             (split; [ intros [Hp | Hp]; [ contradiction | ];
                       exfalso; apply Ef; apply Hp; reflexivity | ]);
             left; destruct s2; exact Se.
    + apply Z.eqb_neq in Ee.
      split; [ lia | ]. split; [ intros _; exact Gw | ]. left. exact Ee.
  - destruct Gs as (Ge & _).
    destruct (_error s1 =? 0) eqn:Ee;
      [ apply Z.eqb_eq in Ee; contradiction | cbn [negb] ].
    split; [ lia | ]. split; [ intros _; exact Gw | ]. left. exact Ge.
Qed.

(** C9: on the simulated device, with its log of write transactions.  A call
    of [setAccelSensitivity] that reads back a configuration byte whose bits
    3-4 already hold the clamped code writes nothing to the configuration
    register; the second of two consecutive calls with the same code writes
    nothing to it; so the two calls together write to it at most once.  The
    same holds of [setGyroSensitivity]. *)
Theorem sensitivity_setters_write_once (c : Z) (w : Fake.t) (s : GY521 F) :
  status_codes_distinct ->
  (let '(val, _, _) := getRegister GY521_ACCEL_CONFIG w s in
   let '(_, w1, s1) := setAccelSensitivity c w s in
   let '(_, w2, _) := setAccelSensitivity c w1 s1 in
   (sensitivity_field val = clamp3 (to_uint8 c) ->
    config_writes GY521_ACCEL_CONFIG w1 = config_writes GY521_ACCEL_CONFIG w) /\
   config_writes GY521_ACCEL_CONFIG w2 = config_writes GY521_ACCEL_CONFIG w1 /\
   (config_writes GY521_ACCEL_CONFIG w2
    <= 1 + config_writes GY521_ACCEL_CONFIG w)%nat) /\
  (let '(val, _, _) := getRegister GY521_GYRO_CONFIG w s in
   let '(_, w1, s1) := setGyroSensitivity c w s in
   let '(_, w2, _) := setGyroSensitivity c w1 s1 in
   (sensitivity_field val = clamp3 (to_uint8 c) ->
    config_writes GY521_GYRO_CONFIG w1 = config_writes GY521_GYRO_CONFIG w) /\
   config_writes GY521_GYRO_CONFIG w2 = config_writes GY521_GYRO_CONFIG w1 /\
   (config_writes GY521_GYRO_CONFIG w2
    <= 1 + config_writes GY521_GYRO_CONFIG w)%nat).
Proof.
  intros Hd. split.
  - pose proof (fake_getRegister GY521_ACCEL_CONFIG GY521_ACCEL_CONFIG w s Hd)
      as G.
    destruct (getRegister GY521_ACCEL_CONFIG w s) as [[val w0] s0].
    destruct G as (_ & _ & Gs).
    pose proof (fake_setAccelSensitivity c w s Hd) as C1.
    destruct (setAccelSensitivity c w s) as [[r1 w1] s1].
    destruct C1 as (L1 & N1 & P1).
    pose proof (fake_setAccelSensitivity c w1 s1 Hd) as C2.
    destruct (setAccelSensitivity c w1 s1) as [[r2 w2] s2].
    destruct C2 as (_ & N2 & _).
    specialize (N2 P1).
    split; [ | split; [ exact N2 | lia ] ].
    intros Hf. apply N1. right. intros Ec. rewrite Ec in Gs.
    destruct Gs as [_ ->]. exact Hf.
  - pose proof (fake_getRegister GY521_GYRO_CONFIG GY521_GYRO_CONFIG w s Hd)
      as G.
    destruct (getRegister GY521_GYRO_CONFIG w s) as [[val w0] s0].
    destruct G as (_ & _ & Gs).
    pose proof (fake_setGyroSensitivity c w s Hd) as C1.
    destruct (setGyroSensitivity c w s) as [[r1 w1] s1].
    destruct C1 as (L1 & N1 & P1).
    pose proof (fake_setGyroSensitivity c w1 s1 Hd) as C2.
    destruct (setGyroSensitivity c w1 s1) as [[r2 w2] s2].
    destruct C2 as (_ & N2 & _).
    specialize (N2 P1).
    split; [ | split; [ exact N2 | lia ] ].
    intros Hf. apply N1. right. intros Ec. rewrite Ec in Gs.
    destruct Gs as [_ ->]. exact Hf.
Qed.

End FakeBus.

(** ** Concrete runs: real arithmetic, the simulated device *)

Section Runs.

#[local] Existing Instance gy521_header.

Local Open Scope R_scope.

(** A driver object at rest: address 0x68, throttling on with a 10 ms
    interval, both sensitivities at code 0 with the matching scale factors,
    no bias, every sample and angle zero, no error. *)
Definition at_rest : GY521 R :=
  {| _address := 104; _throttle := true; _throttleTime := 10;
     _lastTime := 0; _lastMicros := 0; _error := 0;
     _afs := 0; _raw2g := 1 / 16384;
     _ax := 0; _ay := 0; _az := 0; _aax := 0; _aay := 0; _aaz := 0;
     _gfs := 0; _raw2dps := 1 / 131;
     _gx := 0; _gy := 0; _gz := 0; _gax := 0; _gay := 0; _gaz := 0;
     _pitch := 0; _roll := 0; _yaw := 0; _temperature := 0;
     axe := 0; aye := 0; aze := 0; gxe := 0; gye := 0; gze := 0 |}.

(** A device with the given register contents on a bus that acknowledges,
    at [ms] milliseconds / [us] microseconds. *)
Definition device (regs : list (Z * Z)) (ms us : Z) : Fake.t :=
  Fake.mk (Fake.regs_of regs) 0 [] [] [] [] ms us [].

(** The same device on a bus where the coming write transactions end with
    the statuses [acks]. *)
Definition device_acks (acks : list Z) (regs : list (Z * Z)) (ms us : Z)
  : Fake.t :=
  Fake.mk (Fake.regs_of regs) 0 [] [] acks [] ms us [].

(** The device is tilted and turns about all three axes: the ACCEL_OUT
    words are 0x2000, 0x1000, 0x4000 (0.5 g, 0.25 g, 1 g at sensitivity 0),
    the three GYRO_OUT words 131 (one degree per second at sensitivity 0),
    the temperature word 0; one second after the timing reference. *)
Definition turning : Fake.t :=
  device [(59, 32); (61, 16); (63, 64); (68, 131); (70, 131); (72, 131)]%Z
    100 1000000.

(** The device is tilted in the same way and turns about its X axis only:
    GYRO_XOUT = 131, the other two GYRO_OUT words 0; one second after the
    timing reference. *)
Definition turning_x : Fake.t :=
  device [(59, 32); (61, 16); (63, 64); (68, 131)]%Z 100 1000000.

(** Evaluation of a run, the real-number operations left as they are. *)
Ltac run_real :=
  cbv -[Rmult Rplus Rdiv Rinv Ropp Rminus Ratan.atan R_sqrt.sqrt Rtrigo1.PI
        IZR Q2R].

Ltac real_literals := cbv [Q2R Qnum Qden] in *.

(** A run that ends with status [r], written with its three components. *)
Lemma run_with_status {A B C : Type} (p : A * B * C) (r : A) :
  fst (fst p) = r -> p = (r, snd (fst p), snd p).
Proof. destruct p as [[a b] c]. cbn. now intros ->. Defined.

Lemma atan_zero_numerator (x y : R) : x = 0 -> Ratan.atan (x / y) = 0.
Proof.
  intros ->. unfold Rdiv. rewrite Rmult_0_l. apply Ratan.atan_0.
Qed.

(** *** A full read, end to end *)

(** The data registers hold 0x2000, 0, 0x4000 (acceleration), 0x1388
    (temperature) and 0, 0, 0 (gyro); at sensitivity 0 and without bias a
    full read gives 0.5 g, 0, 1 g, about 51.24 degrees Celsius, and no
    rotation. *)
Example read_end_to_end :
  let '(r, _, s) :=
    read (device [(59, 32); (63, 64); (65, 19); (66, 136)]%Z 100 0) at_rest in
  r = GY521_OK /\
  _ax s = 0.5 /\ _ay s = 0 /\ _az s = 1 /\
  _temperature s = 5000 * 0.00294117647 + 36.53 /\
  _gx s = 0 /\ _gy s = 0 /\ _gz s = 0.
Proof.
  run_real. real_literals. repeat split; try reflexivity; lra.
Qed.

(** *** C1 *)

(** A tilt angle, in degrees, has the sign of its numerator when the
    denominator is the square root of a positive number. *)
Lemma tilt_angle_sign (n d : R) :
  0 < d ->
  (0 < n -> 0 < Ratan.atan (n / R_sqrt.sqrt d) * (180 * / 1 / Rtrigo1.PI)) /\
  (n < 0 -> Ratan.atan (n / R_sqrt.sqrt d) * (180 * / 1 / Rtrigo1.PI) < 0).
Proof.
  intros Hd.
  assert (Hs : 0 < / R_sqrt.sqrt d)
    by (apply Rinv_0_lt_compat, R_sqrt.sqrt_lt_R0, Hd).
  assert (Hk : 0 < 180 * / 1 / Rtrigo1.PI).
  { apply Rdiv_lt_0_compat; [ lra | apply Rtrigo1.PI_RGT_0 ]. }
  split; intros Hn.
  - apply Rmult_lt_0_compat; [ | exact Hk ].
    rewrite <- Ratan.atan_0. apply Ratan.atan_increasing.
    unfold Rdiv. apply Rmult_lt_0_compat; assumption.
  - assert (Ha : Ratan.atan (n / R_sqrt.sqrt d) < 0).
    { rewrite <- Ratan.atan_0. apply Ratan.atan_increasing.
      unfold Rdiv. nra. }
    nra.
Qed.

(** The tilt angles of a run, each replaced by a number of its sign. *)
Ltac tilt_angles :=
  repeat match goal with
         | |- context [Ratan.atan (?n / R_sqrt.sqrt ?d) * ?k] =>
             let Hs := fresh "Hs" in
             first
               [ assert (Hs : 0 < Ratan.atan (n / R_sqrt.sqrt d) * k)
                   by (apply tilt_angle_sign; lra)
               | assert (Hs : Ratan.atan (n / R_sqrt.sqrt d) * k < 0)
                   by (apply tilt_angle_sign; lra) ];
             revert Hs;
             generalize (Ratan.atan (n / R_sqrt.sqrt d) * k);
             intros ? Hs
         end.

(** C1, counterexample: [read] from the object at rest, on the tilted device
    that turns about X, returns OK.  The accelerations are 0.5 g, 0.25 g and
    1 g, so no tilt angle divides by zero; the X gyro angle is 1 degree and
    the Y gyro angle 0.  Pitch is not 0.96 times the X gyro angle plus 0.04
    times the tilt angle the specification calls tiltX (the member [_aay]),
    nor plus 0.04 times the member [_aax]; roll is not 0.96 times the Y gyro
    angle plus 0.04 times either tilt angle. *)
Lemma read_pitch_not_from_x_angle :
  fst (fst (read turning_x at_rest)) = GY521_OK /\
  (let s' := snd (read turning_x at_rest) in
   (_ax s' = 0.5 /\ _ay s' = 0.25 /\ _az s' = 1) /\
   (_gax s' = 1 /\ _gay s' = 0) /\
   _pitch s' <> 0.96 * _gax s' + 0.04 * _aay s' /\
   _pitch s' <> 0.96 * _gax s' + 0.04 * _aax s' /\
   _roll s' <> 0.96 * _gay s' + 0.04 * _aax s' /\
   _roll s' <> 0.96 * _gay s' + 0.04 * _aay s').
Proof.
  split; [ vm_compute; reflexivity | ].
  run_real. real_literals. tilt_angles.
  repeat split; try lra; intros Heq; lra.
Qed.

(** The status codes of the library's header are distinct. *)
Lemma gy521_header_distinct : status_codes_distinct.
Proof. vm_compute. repeat split; discriminate. Defined.

(** [read_ok_fusion] at the object at rest, on the tilted device that turns
    about X. *)
Lemma read_ok_fusion_witness :
  status_codes_distinct /\
  read turning_x at_rest =
    (GY521_OK, snd (fst (read turning_x at_rest)),
     snd (read turning_x at_rest)) /\
  (let s' := snd (read turning_x at_rest) in
   _yaw s' = _gaz s' /\
   _pitch s' = 0.96 * _gay s' + 0.04 * _aay s' /\
   _roll s' = 0.96 * _gax s' + 0.04 * _aax s').
Proof.
  assert (E : read turning_x at_rest =
              (GY521_OK, snd (fst (read turning_x at_rest)),
               snd (read turning_x at_rest))).
  { apply run_with_status. vm_compute. reflexivity. }
  split; [ exact gy521_header_distinct | ].
  split; [ exact E | ].
  pose proof (read_ok_fusion _ _ _ _ gy521_header_distinct E) as T.
  destruct T as (Ty & Tp & Tr & _).
  split; [ exact Ty | ]. split; [ exact Tp | exact Tr ].
Defined.

(** *** C2 *)

(** C2, counterexample: [readGyro] from the object at rest, on the device that
    turns about all three axes, returns OK and leaves the three gyro angles at
    1 degree, while yaw, pitch and roll still are 0: yaw is not the Z gyro
    angle, and pitch and roll are not 0.96 times a gyro angle plus 0.04 times
    a tilt angle, whichever axis is paired with which. *)
Lemma readGyro_does_not_fuse :
  fst (fst (readGyro turning at_rest)) = GY521_OK /\
  (let s' := snd (readGyro turning at_rest) in
   _yaw s' <> _gaz s' /\
   _pitch s' <> 0.96 * _gax s' + 0.04 * _aax s' /\
   _pitch s' <> 0.96 * _gay s' + 0.04 * _aay s' /\
   _roll s' <> 0.96 * _gax s' + 0.04 * _aax s' /\
   _roll s' <> 0.96 * _gay s' + 0.04 * _aay s').
Proof.
  split; [ vm_compute; reflexivity | ].
  run_real. real_literals. repeat split; lra.
Qed.

(** [readGyro_ok_no_fusion] at the object at rest, on the device that turns
    about all three axes. *)
Lemma readGyro_ok_no_fusion_witness :
  status_codes_distinct /\
  readGyro turning at_rest =
    (GY521_OK, snd (fst (readGyro turning at_rest)),
     snd (readGyro turning at_rest)) /\
  _pitch (snd (readGyro turning at_rest)) = _pitch at_rest.
Proof.
  assert (E : readGyro turning at_rest =
              (GY521_OK, snd (fst (readGyro turning at_rest)),
               snd (readGyro turning at_rest))).
  { apply run_with_status. vm_compute. reflexivity. }
  split; [ exact gy521_header_distinct | ].
  split; [ exact E | ].
  exact (proj1 (proj2 (proj2 (proj2 (proj2 (proj2
    (readGyro_ok_no_fusion _ _ _ _ gy521_header_distinct E))))))).
Defined.

(** *** C3 *)

(** C3, the code at the failing input: [readTemperature] on a device whose
    temperature register holds the raw value 0 returns OK and leaves 0 in
    [_temperature], where the conversion gives 36.53; with the raw value 340
    it leaves 340, where the conversion gives about 37.53. *)
Theorem readTemperature_stores_raw_word :
  (fst (fst (readTemperature (device [] 100 0) at_rest)) = GY521_OK /\
   _temperature (snd (readTemperature (device [] 100 0) at_rest)) = 0 /\
   0 <> 0 * 0.00294117647 + 36.53) /\
  (fst (fst (readTemperature (device [(65, 1); (66, 84)]%Z 100 0) at_rest))
     = GY521_OK /\
   _temperature
     (snd (readTemperature (device [(65, 1); (66, 84)]%Z 100 0) at_rest))
     = 340 /\
   340 <> 340 * 0.00294117647 + 36.53).
Proof.
  split; (split; [ vm_compute; reflexivity | ]);
    (split; [ run_real; reflexivity | real_literals; lra ]).
Qed.

(** *** C4 *)

(** C4, the code at the failing input: after a full read on the device that
    turns about all three axes the gyro angles are 1 degree; [reset] then
    zeroes pitch, roll and yaw and the other samples, and leaves the three
    gyro angles at 1 degree; so does the constructor, which calls [reset],
    run on that object. *)
Theorem reset_keeps_gyro_angles :
  let s := snd (read turning at_rest) in
  (_pitch (reset s) = 0 /\ _roll (reset s) = 0 /\ _yaw (reset s) = 0) /\
  (_gax (reset s) = 1 /\ _gay (reset s) = 1 /\ _gaz (reset s) = 1) /\
  (_gax (GY521_new 104 s) = 1 /\ _gay (GY521_new 104 s) = 1 /\
   _gaz (GY521_new 104 s) = 1).
Proof.
  run_real. real_literals. repeat split; lra.
Qed.

(** *** C5 *)

(** The bus does not acknowledge the first write transaction and works from
    then on; the accelerometer configuration register holds 0x10
    (sensitivity code 2). *)
Definition glitch_then_fine : Fake.t :=
  device_acks [2; 0; 0]%Z [(28, 16)%Z] 0 0.

(** C5, counterexample: a first [getRegister] fails (not acknowledged) and
    stores the WRITE error; a second one, right after, completes and returns
    the register value 0x10; the last error still reads the WRITE error, not
    OK. *)
Lemma last_error_survives_success :
  let '(_, w1, s1) := getRegister GY521_ACCEL_CONFIG glitch_then_fine at_rest in
  let '(r2, _, s2) := getRegister GY521_ACCEL_CONFIG w1 s1 in
  (exchange_of to_uint8 (_address s1) GY521_ACCEL_CONFIG 1 w1 = complete /\
   r2 = 16 /\
   _error s2 = to_int16 GY521_ERROR_WRITE /\
   _error s2 <> GY521_OK)%Z.
Proof.
  vm_compute. repeat split; discriminate.
Qed.

(** *** C6 *)

(** C6, counterexample: at 100 ms, on a bus that does not acknowledge,
    [read], [readAccel] and [readGyro] fail with the WRITE error, and each has
    moved [_lastTime] from 0 to 100. *)
Lemma failed_read_moves_lastTime :
  let w := device_acks [2]%Z [] 100 0 in
  ((fst (fst (read w at_rest)) = to_int16 GY521_ERROR_WRITE /\
    _lastTime (snd (read w at_rest)) <> _lastTime at_rest) /\
   (fst (fst (readAccel w at_rest)) = to_int16 GY521_ERROR_WRITE /\
    _lastTime (snd (readAccel w at_rest)) <> _lastTime at_rest) /\
   (fst (fst (readGyro w at_rest)) = to_int16 GY521_ERROR_WRITE /\
    _lastTime (snd (readGyro w at_rest)) <> _lastTime at_rest))%Z.
Proof.
  vm_compute. repeat split; discriminate.
Qed.

(** *** C7 *)

(** [throttled_reads_skip] at 5 ms, with the last sample at 0 ms and an
    interval of 10 ms. *)
Lemma throttled_reads_skip_witness :
  let w := device [] 5 0 in
  (_throttle at_rest = true /\
   to_uint32 (to_uint32 (millis w) - _lastTime at_rest)
     < _throttleTime at_rest /\
   read w at_rest = (to_int16 GY521_THROTTLED, w, at_rest))%Z.
Proof.
  assert (Hon : _throttle at_rest = true) by reflexivity.
  assert (Hlt : (to_uint32 (to_uint32 (millis (device [] 5 0))
                            - _lastTime at_rest)
                 < _throttleTime at_rest)%Z) by (vm_compute; reflexivity).
  split; [ exact Hon | ]. split; [ exact Hlt | ].
  exact (proj1 (throttled_reads_skip _ _ Hon Hlt)).
Defined.

(** *** C8 *)

(** The object at rest in single precision: every sample and angle zero, both
    sensitivities at code 0 with the matching scale factors, no bias. *)
Definition at_rest_single : GY521 spec_float :=
  let zero : spec_float := of_int 0%Z in
  {| _address := 104; _throttle := true; _throttleTime := 10;
     _lastTime := 0; _lastMicros := 0; _error := 0;
     _afs := 0; _raw2g := RAW2G_FACTOR;
     _ax := zero; _ay := zero; _az := zero;
     _aax := zero; _aay := zero; _aaz := zero;
     _gfs := 0; _raw2dps := RAW2DPS_FACTOR;
     _gx := zero; _gy := zero; _gz := zero;
     _gax := zero; _gay := zero; _gaz := zero;
     _pitch := zero; _roll := zero; _yaw := zero; _temperature := zero;
     axe := zero; aye := zero; aze := zero;
     gxe := zero; gye := zero; gze := zero |}.

(** A device whose two configuration registers hold 0, on a bus that
    acknowledges. *)
Definition unconfigured : Fake.t := device [] 0 0.

(** [sensitivity_scale_exact] at code 2, on the unconfigured device: both
    setters return [true]; raw 16384 then converts to 4 g and raw 131 to
    4 degrees per second, in exact real arithmetic and in single
    precision. *)
Lemma sensitivity_scale_exact_witness :
  (0 <= 2 <= 3)%Z /\
  (setAccelSensitivity 2 unconfigured at_rest =
     (true, snd (fst (setAccelSensitivity 2 unconfigured at_rest)),
      snd (setAccelSensitivity 2 unconfigured at_rest)) /\
   _ax (convert_raw_acceleration
          (set_accel 16384 16384 16384
             (snd (setAccelSensitivity 2 unconfigured at_rest)))) = 4) /\
  (setGyroSensitivity 2 unconfigured at_rest =
     (true, snd (fst (setGyroSensitivity 2 unconfigured at_rest)),
      snd (setGyroSensitivity 2 unconfigured at_rest)) /\
   _gx (convert_raw_gyro
          (set_gyro 131 131 131
             (snd (setGyroSensitivity 2 unconfigured at_rest)))) = 4) /\
  (setAccelSensitivity 2 unconfigured at_rest_single =
     (true, snd (fst (setAccelSensitivity 2 unconfigured at_rest_single)),
      snd (setAccelSensitivity 2 unconfigured at_rest_single)) /\
   _ax (convert_raw_acceleration
          (set_accel (of_int 16384%Z) (of_int 16384%Z) (of_int 16384%Z)
             (snd (setAccelSensitivity 2 unconfigured at_rest_single)))) =
     of_int 4%Z) /\
  (setGyroSensitivity 2 unconfigured at_rest_single =
     (true, snd (fst (setGyroSensitivity 2 unconfigured at_rest_single)),
      snd (setGyroSensitivity 2 unconfigured at_rest_single)) /\
   _gx (convert_raw_gyro
          (set_gyro (of_int 131%Z) (of_int 131%Z) (of_int 131%Z)
             (snd (setGyroSensitivity 2 unconfigured at_rest_single)))) =
     of_int 4%Z).
Proof.
  assert (Hc : (0 <= 2 <= 3)%Z) by lia.
  assert (Ea : setAccelSensitivity 2 unconfigured at_rest =
               (true, snd (fst (setAccelSensitivity 2 unconfigured at_rest)),
                snd (setAccelSensitivity 2 unconfigured at_rest))).
  { apply run_with_status. vm_compute. reflexivity. }
  assert (Eg : setGyroSensitivity 2 unconfigured at_rest =
               (true, snd (fst (setGyroSensitivity 2 unconfigured at_rest)),
                snd (setGyroSensitivity 2 unconfigured at_rest))).
  { apply run_with_status. vm_compute. reflexivity. }
  assert (Fa : setAccelSensitivity 2 unconfigured at_rest_single =
               (true,
                snd (fst (setAccelSensitivity 2 unconfigured at_rest_single)),
                snd (setAccelSensitivity 2 unconfigured at_rest_single))).
  { apply run_with_status. vm_compute. reflexivity. }
  assert (Fg : setGyroSensitivity 2 unconfigured at_rest_single =
               (true,
                snd (fst (setGyroSensitivity 2 unconfigured at_rest_single)),
                snd (setGyroSensitivity 2 unconfigured at_rest_single))).
  { apply run_with_status. vm_compute. reflexivity. }
  destruct (sensitivity_scale_exact (W := Fake.t) 2 Hc) as [TR TF].
  split; [ exact Hc | ].
  split; [ split; [ exact Ea | ] | split; [ split; [ exact Eg | ] | split ] ].
  - pose proof (proj1 (TR _ _ _ _) Ea) as T. exact (proj1 T).
  - pose proof (proj2 (TR _ _ _ _) Eg) as T. exact (proj1 T).
  - split; [ exact Fa | ].
    pose proof (proj1 (TF _ _ _ _) Fa) as T. exact (proj1 T).
  - split; [ exact Fg | ].
    pose proof (proj2 (TF _ _ _ _) Fg) as T. exact (proj1 T).
Defined.

(** [setGyroSensitivity 2] on the unconfigured device: it returns [true],
    writes 0x10 to GYRO_CONFIG and stores the code 2. *)
Example setGyroSensitivity_run :
  let '(r, w1, s1) := setGyroSensitivity 2 unconfigured at_rest in
  r = true /\ _gfs s1 = 2%Z /\ Fake.regs w1 27 = 16%Z /\
  Fake.log w1 = [([27], 0); ([27; 16], 0)]%Z.
Proof. vm_compute. repeat split. Qed.

(** *** C9 *)

(** [sensitivity_setters_write_once] at code 2, on a device whose
    configuration register holds 0. *)
Lemma sensitivity_setters_write_once_witness :
  let run1 := setAccelSensitivity 2 (device [] 0 0) at_rest in
  let run2 := setAccelSensitivity 2 (snd (fst run1)) (snd run1) in
  status_codes_distinct /\
  (config_writes GY521_ACCEL_CONFIG (snd (fst run2))
   <= 1 + config_writes GY521_ACCEL_CONFIG (device [] 0 0))%nat.
Proof.
  pose proof (sensitivity_setters_write_once 2 (device [] 0 0) at_rest
                gy521_header_distinct) as T.
  vm_compute in T. destruct T as ((_ & _ & T) & _).
  split; [ exact gy521_header_distinct | ].
  vm_compute. exact T.
Defined.

(** Two calls of [setAccelSensitivity 2] on a device whose configuration
    register holds 0: the log shows the register read of each call and one
    write of 0x10 to the register, by the first call. *)
Example setAccelSensitivity_twice :
  let '(r1, w1, s1) := setAccelSensitivity 2 (device [] 0 0) at_rest in
  let '(r2, w2, _) := setAccelSensitivity 2 w1 s1 in
  r1 = true /\ r2 = true /\
  Fake.log w2 = [([28], 0); ([28; 16], 0); ([28], 0)]%Z.
Proof. vm_compute. repeat split. Qed.

(** *** C10 *)

(** [sensitivity_setter_bus_error] at the argument 5, on a bus that does not
    acknowledge: the call fails and [_afs] is 3. *)
Lemma sensitivity_setter_bus_error_witness :
  let w := device_acks [2]%Z [(28, 0)%Z] 0 0 in
  status_codes_distinct /\
  exchange_of to_uint8 (_address at_rest) GY521_ACCEL_CONFIG 1 w <> complete /\
  (let '(r, _, s') := setAccelSensitivity 5 w at_rest in
   r = false /\ _raw2g s' = _raw2g at_rest /\ _afs s' = 3%Z).
Proof.
  assert (Hx : exchange_of to_uint8 (_address at_rest) GY521_ACCEL_CONFIG 1
                 (device_acks [2]%Z [(28, 0)%Z] 0 0) <> complete).
  { vm_compute. discriminate. }
  split; [ exact gy521_header_distinct | ]. split; [ exact Hx | ].
  exact (proj1 (sensitivity_setter_bus_error 5 _ _ gy521_header_distinct) Hx).
Defined.

End Runs.

(** ** Further properties: decoding, throttling, isolation *)

Section Decoding.

Context {W : Type} {TW : Wire.TwoWire W}.

(** Or-ing a byte into a multiple of 256 adds it. *)
Lemma lor_low_byte (m lo : Z) :
  0 <= lo < 256 -> Z.lor (m * 256) lo = m * 256 + lo.
Proof.
  intros Hlo.
  assert (Hland : Z.land (m * 256) lo = 0).
  { apply Z.bits_inj'. intros n Hn. rewrite Z.land_spec, Z.bits_0.
    destruct (Z.lt_ge_cases n 8) as [Hlt | Hge].
    - change 256 with (2 ^ 8). now rewrite Z.mul_pow2_bits_low.
    - destruct (Z.eq_dec lo 0) as [-> | Hne].
      + now rewrite Z.bits_0, andb_false_r.
      + rewrite (Z.bits_above_log2 lo n), andb_false_r; [ reflexivity | lia | ].
        assert (Z.log2 lo < 8) by (apply Z.log2_lt_pow2; lia). lia. }
  rewrite <- Z.lxor_lor by exact Hland.
  symmetry. apply Z.add_nocarry_lxor. exact Hland.
Qed.

Lemma to_int16_range (z : Z) : -32768 <= to_int16 z <= 32767.
Proof. unfold to_int16. pose proof (Z.mod_pos_bound (z + 32768) 65536). lia. Qed.

(** The three assignments of [_WireRead2] on two bytes. *)
Lemma int16_of_bytes (hi lo : Z) :
  0 <= hi < 256 -> 0 <= lo < 256 ->
  to_int16 (Z.lor (to_int16 (Z.shiftl (to_int16 hi) 8)) lo) =
    if hi <? 128 then hi * 256 + lo else hi * 256 + lo - 65536.
Proof.
  intros Hhi Hlo. unfold to_int16 at 3.
  rewrite (Z.mod_small (hi + 32768)) by lia.
  replace (hi + 32768 - 32768) with hi by lia.
  rewrite Z.shiftl_mul_pow2 by lia. change (2 ^ 8) with 256.
  destruct (hi <? 128) eqn:E.
  - apply Z.ltb_lt in E.
    assert (Hx : to_int16 (hi * 256) = hi * 256).
    { unfold to_int16. rewrite Z.mod_small by lia. lia. }
    rewrite Hx, lor_low_byte by exact Hlo.
    unfold to_int16. rewrite Z.mod_small by lia. lia.
  - apply Z.ltb_ge in E.
    assert (Hx : to_int16 (hi * 256) = (hi - 256) * 256).
    { unfold to_int16.
      replace (hi * 256 + 32768) with (hi * 256 - 32768 + 1 * 65536) by lia.
      rewrite Z.mod_add by lia. rewrite Z.mod_small by lia. lia. }
    rewrite Hx, lor_low_byte by exact Hlo.
    unfold to_int16. rewrite Z.mod_small by lia. lia.
Qed.

(** X1: [_WireRead2] decodes two bytes, high byte first, as a 16-bit
    two's-complement number: with the bytes [hi] and [lo] (0..255) it returns
    [hi * 256 + lo] when [hi] is below 128 and [hi * 256 + lo - 65536]
    otherwise, and the world after the second byte. *)
Theorem WireRead2_big_endian (w w1 w2 : W) (hi lo : Z) :
  Wire.read w = (hi, w1) ->
  Wire.read w1 = (lo, w2) ->
  0 <= hi < 256 -> 0 <= lo < 256 ->
  _WireRead2 w =
    ((if hi <? 128 then hi * 256 + lo else hi * 256 + lo - 65536), w2).
Proof.
  intros E1 E2 Hhi Hlo. unfold _WireRead2. rewrite E1, E2.
  now rewrite int16_of_bytes.
Qed.

(** X2: whatever the bus answers, the word [_WireRead2] returns is in the
    range of [int16_t]; and the two bytes of a 16-bit value [v], high byte
    first, decode to [v]. *)
Theorem WireRead2_round_trip (w : W) :
  -32768 <= fst (_WireRead2 w) <= 32767 /\
  (forall (v : Z) (w1 w2 : W),
     -32768 <= v <= 32767 ->
     Wire.read w = (to_uint8 (Z.shiftr v 8), w1) ->
     Wire.read w1 = (to_uint8 v, w2) ->
     _WireRead2 w = (v, w2)).
Proof.
  split.
  - unfold _WireRead2.
    destruct (Wire.read w) as [b1 w1]. destruct (Wire.read w1) as [b2 w2].
    cbn [fst]. apply to_int16_range.
  - intros v w1 w2 Hv E1 E2. unfold _WireRead2. rewrite E1, E2.
    rewrite int16_of_bytes
      by (unfold to_uint8; apply Z.mod_pos_bound; lia).
    f_equal. unfold to_uint8. rewrite Z.shiftr_div_pow2 by lia.
    change (2 ^ 8) with 256.
    destruct (v / 256 mod 256 <? 128) eqn:E;
      [ apply Z.ltb_lt in E | apply Z.ltb_ge in E ];
      Z.div_mod_to_equations; lia.
Qed.

(** The unsigned 32-bit difference of two clock readings [d] apart. *)
Lemma uint32_elapsed (last d : Z) :
  0 <= last < 4294967296 -> 0 <= d < 4294967296 ->
  to_uint32 (to_uint32 (last + d) - last) = d.
Proof.
  intros Hl Hd. unfold to_uint32.
  destruct (Z.lt_ge_cases (last + d) 4294967296) as [Hlt | Hge].
  - rewrite (Z.mod_small (last + d)) by lia.
    replace (last + d - last) with d by lia. apply Z.mod_small. lia.
  - replace (last + d) with (last + d - 4294967296 + 1 * 4294967296) by lia.
    rewrite Z.mod_add by lia.
    rewrite (Z.mod_small (last + d - 4294967296)) by lia.
    replace (last + d - 4294967296 - last) with (d + (-1) * 4294967296) by lia.
    rewrite Z.mod_add by lia. apply Z.mod_small. lia.
Qed.

End Decoding.

Section Sampling.

Context {F : Type} {FO : FloatOps F} {ML : MathLib F}.
Context {W : Type} {TW : Wire.TwoWire W} {CK : Clock W}.
Context {H : Header}.

Local Open Scope flt_scope.

Local Abbreviation state := (GY521 F).

Ltac bus_answers :=
  cbv beta iota zeta delta
    [exchange_of error_after burst select transmit fold_left fst snd] in *.

(** The status a read returns after an exchange that ended as [x]. *)
Definition status_after (x : exchange) : Z :=
  match x with
  | not_acknowledged => to_int16 GY521_ERROR_WRITE
  | wrong_count => to_int16 GY521_ERROR_READ
  | complete => GY521_OK
  end.

(** The members of the object, by what they belong to. *)
Definition configuration (s : state) :=
  (_address s, _throttle s, _throttleTime s,
   (_afs s, _raw2g s), (_gfs s, _raw2dps s),
   (axe s, aye s, aze s), (gxe s, gye s, gze s)).

Definition accel_part (s : state) :=
  (_ax s, _ay s, _az s, (_aax s, _aay s, _aaz s)).

Definition gyro_part (s : state) :=
  (_gx s, _gy s, _gz s, (_gax s, _gay s, _gaz s), _lastMicros s).

Definition fusion_part (s : state) := (_pitch s, _roll s, _yaw s).

(** X3: the status that [read], [readAccel], [readGyro] and
    [readTemperature] return tells how the call went: THROTTLED when the
    throttle test holds (never for [readTemperature]), otherwise the WRITE
    error when the register select is not acknowledged, the READ error when
    the byte count is not the one requested (14, 6, 6, 2), and OK when the
    exchange completes. *)
Theorem read_status_by_exchange (w : W) (s : state) :
  let addr := _address s in
  let now := to_uint32 (millis w) in
  fst (fst (read w s)) =
    (if throttled now s then to_int16 GY521_THROTTLED
     else status_after (exchange_of to_int8 addr GY521_ACCEL_XOUT_H 14 w)) /\
  fst (fst (readAccel w s)) =
    (if throttled now s then to_int16 GY521_THROTTLED
     else status_after (exchange_of to_int8 addr GY521_ACCEL_XOUT_H 6 w)) /\
  fst (fst (readGyro w s)) =
    (if throttled now s then to_int16 GY521_THROTTLED
     else status_after (exchange_of to_int8 addr GY521_GYRO_XOUT_H 6 w)) /\
  fst (fst (readTemperature w s)) =
    status_after (exchange_of to_int8 addr GY521_TEMP_OUT_H 2 w).
Proof.
  destruct s. unfold read, readAccel, readGyro, readTemperature, status_after.
  bus_answers. members. repeat split; run; reflexivity.
Qed.

(** X4: a read that fails changes the throttle timestamp and the last error
    and nothing else: no sample, angle or fused output is touched, and no
    byte is taken from the bus.  ([readTemperature], which is not throttled,
    changes the last error only.) *)
Theorem failed_read_keeps_samples (w : W) (s : state) :
  let addr := _address s in
  let now := to_uint32 (millis w) in
  let after (x : exchange) (reg n : Z) :=
    match x with
    | not_acknowledged => snd (select addr reg w)
    | _ => snd (burst addr reg n w)
    end in
  throttled now s = false ->
  (forall x, x = exchange_of to_int8 addr GY521_ACCEL_XOUT_H 14 w ->
     x <> complete ->
     read w s = (status_after x, after x GY521_ACCEL_XOUT_H 14,
                 set_error (status_after x) (set_lastTime now s))) /\
  (forall x, x = exchange_of to_int8 addr GY521_ACCEL_XOUT_H 6 w ->
     x <> complete ->
     readAccel w s = (status_after x, after x GY521_ACCEL_XOUT_H 6,
                      set_error (status_after x) (set_lastTime now s))) /\
  (forall x, x = exchange_of to_int8 addr GY521_GYRO_XOUT_H 6 w ->
     x <> complete ->
     readGyro w s = (status_after x, after x GY521_GYRO_XOUT_H 6,
                     set_error (status_after x) (set_lastTime now s))) /\
  (forall x, x = exchange_of to_int8 addr GY521_TEMP_OUT_H 2 w ->
     x <> complete ->
     readTemperature w s = (status_after x, after x GY521_TEMP_OUT_H 2,
                            set_error (status_after x) s)).
Proof.
  destruct s. cbv beta zeta. intros Ht.
  unfold read, readAccel, readGyro, readTemperature, status_after.
  members. rewrite Ht. bus_answers.
  repeat split; intros x -> Hx; revert Hx; run; intros Hx;
    try (exfalso; apply Hx; reflexivity); reflexivity.
Qed.

(** X5: an accelerometer-only read, however it ends, leaves the angular
    rates, the gyro angles, the integration reference [_lastMicros], the
    temperature and pitch, roll and yaw as they were. *)
Theorem readAccel_isolation (w : W) (s : state) :
  let s' := snd (readAccel w s) in
  gyro_part s' = gyro_part s /\
  _temperature s' = _temperature s /\
  fusion_part s' = fusion_part s.
Proof.
  destruct s. unfold readAccel, gyro_part, fusion_part. members.
  run; repeat split.
Qed.

(** X6: a gyro-only read, however it ends, leaves the accelerations, the
    tilt angles and the temperature as they were. *)
Theorem readGyro_isolation (w : W) (s : state) :
  let s' := snd (readGyro w s) in
  accel_part s' = accel_part s /\
  _temperature s' = _temperature s.
Proof.
  destruct s. unfold readGyro, accel_part. members.
  run; repeat split.
Qed.

(** X7: a temperature-only read is never throttled and never throttles: it
    reads no clock and, however it ends, leaves the throttle timestamp, the
    accelerations and tilt angles, the gyro members with the integration
    reference, and pitch, roll and yaw as they were; and two objects that
    differ in their throttle members only get the same status and leave the
    same world. *)
Theorem readTemperature_isolation (w : W) (s : state) :
  (let s' := snd (readTemperature w s) in
   _lastTime s' = _lastTime s /\
   accel_part s' = accel_part s /\
   gyro_part s' = gyro_part s /\
   fusion_part s' = fusion_part s) /\
  (forall (on : bool) (interval last : Z),
     let s2 := mkGY521 (_address s) on interval last (_lastMicros s)
                 (_error s) (_afs s) (_raw2g s) (_ax s) (_ay s) (_az s)
                 (_aax s) (_aay s) (_aaz s) (_gfs s) (_raw2dps s)
                 (_gx s) (_gy s) (_gz s) (_gax s) (_gay s) (_gaz s)
                 (_pitch s) (_roll s) (_yaw s) (_temperature s)
                 (axe s) (aye s) (aze s) (gxe s) (gye s) (gze s) in
     fst (readTemperature w s2) = fst (readTemperature w s)).
Proof.
  destruct s. unfold readTemperature, accel_part, gyro_part, fusion_part.
  members. split.
  - run; repeat split.
  - intros on interval last. run; reflexivity.
Qed.

(** X8: no read changes the configuration of the object: the address, the
    throttle flag and interval, the sensitivity codes and scale factors and
    the six biases are the same after [read], [readAccel], [readGyro] and
    [readTemperature], however they end. *)
Theorem reads_keep_configuration (w : W) (s : state) :
  configuration (snd (read w s)) = configuration s /\
  configuration (snd (readAccel w s)) = configuration s /\
  configuration (snd (readGyro w s)) = configuration s /\
  configuration (snd (readTemperature w s)) = configuration s.
Proof.
  destruct s. unfold read, readAccel, readGyro, readTemperature, configuration.
  members. repeat split; run; reflexivity.
Qed.

(** The tilt angles that the block "prepare for Pitch Roll Yaw" computes from
    the accelerations of an object. *)
Definition tilt_angles_of (s : state) : F * F * F :=
  (atan (_ay s / sqrt (_ax s * _ax s + _az s * _az s)) * RAD2DEGREES,
   atan (lit (-1) * _ax s / sqrt (_ay s * _ay s + _az s * _az s))
     * RAD2DEGREES,
   atan (_az s / sqrt (_ax s * _ax s + _ay s * _ay s)) * RAD2DEGREES).

(** X9: after a full read or an accelerometer-only read that returns OK, the
    three tilt angles are the ones computed from the accelerations the same
    call has stored, bias included: [_aax] from y over the x-z plane, [_aay]
    from minus x over the y-z plane, [_aaz] from z over the x-y plane, in
    degrees. *)
Theorem tilt_angles_follow_acceleration (w w' : W) (s s' : state) :
  status_codes_distinct ->
  read w s = (GY521_OK, w', s') \/ readAccel w s = (GY521_OK, w', s') ->
  (_aax s', _aay s', _aaz s') = tilt_angles_of s'.
Proof.
  intros (Hth & Hrd & Hwr & _) [E | E]; destruct s;
    [ unfold read in E | unfold readAccel in E ];
    members in E; revert E;
    run; intros E; injection E; intros;
    first [ exfalso; solve [auto]
          | subst s'; unfold tilt_angles_of; members; reflexivity ].
Qed.

(** *** Wrap-around of the clocks *)

(** X10: the throttle test is safe across the roll-over of [millis()].  When
    the clock reads [d] milliseconds after the stored timestamp, counted
    modulo 2^32, a read with throttling on is throttled exactly when [d] is
    below the interval: it returns THROTTLED when it is, and otherwise goes
    to the bus and stores the new timestamp. *)
Theorem throttle_wrap_safe (w : W) (s : state) (d : Z) :
  _throttle s = true ->
  0 <= _lastTime s < 4294967296 ->
  0 <= d < 4294967296 ->
  to_uint32 (millis w) = to_uint32 (_lastTime s + d)%Z ->
  throttled (to_uint32 (millis w)) s = (d <? _throttleTime s) /\
  (d < _throttleTime s ->
   read w s = (to_int16 GY521_THROTTLED, w, s) /\
   readAccel w s = (to_int16 GY521_THROTTLED, w, s) /\
   readGyro w s = (to_int16 GY521_THROTTLED, w, s)) /\
  (_throttleTime s <= d ->
   _lastTime (snd (read w s)) = to_uint32 (_lastTime s + d)%Z /\
   _lastTime (snd (readAccel w s)) = to_uint32 (_lastTime s + d)%Z /\
   _lastTime (snd (readGyro w s)) = to_uint32 (_lastTime s + d)%Z).
Proof.
  intros Hon Hl Hd Hnow.
  assert (Ht : throttled (to_uint32 (millis w)) s = (d <? _throttleTime s)).
  { unfold throttled. rewrite Hon, Hnow, uint32_elapsed by assumption.
    reflexivity. }
  split; [ exact Ht | ]. split.
  - intros Hlt. apply Z.ltb_lt in Hlt. rewrite Hlt in Ht.
    unfold read, readAccel, readGyro. rewrite Ht. repeat split.
  - intros Hge. apply Z.ltb_ge in Hge. rewrite Hge in Ht. rewrite <- Hnow.
    destruct s. unfold read, readAccel, readGyro. members. rewrite Ht.
    repeat split; run; reflexivity.
Qed.

(** X11: the integration interval is safe across the roll-over of
    [micros()].  When a full read or a gyro-only read returns OK and the
    clock then reads [d] microseconds after [_lastMicros], counted modulo
    2^32, each gyro angle has advanced by the new rate times [d * 1e-6]. *)
Theorem integration_wrap_safe (w w' : W) (s s' : state) (d : Z) :
  status_codes_distinct ->
  read w s = (GY521_OK, w', s') \/ readGyro w s = (GY521_OK, w', s') ->
  0 <= _lastMicros s < 4294967296 ->
  0 <= d < 4294967296 ->
  to_uint32 (micros w') = to_uint32 (_lastMicros s + d)%Z ->
  _gax s' = _gax s + _gx s' * (of_int d * lit (1 # 1000000)) /\
  _gay s' = _gay s + _gy s' * (of_int d * lit (1 # 1000000)) /\
  _gaz s' = _gaz s + _gz s' * (of_int d * lit (1 # 1000000)).
Proof.
  intros (Hth & Hrd & Hwr & _) E Hl Hd Hnow.
  pose proof (uint32_elapsed _ _ Hl Hd) as Hel. rewrite <- Hnow in Hel.
  destruct E as [E | E]; destruct s;
    [ unfold read in E | unfold readGyro in E ];
    members in E; cbn [_lastMicros] in *; revert E;
    run; intros E; injection E; intros;
    first [ exfalso; solve [auto]
          | subst s' w'; members; rewrite Hel; repeat split ].
Qed.

(** X12: the three throttled reads share one timestamp, and a read stores it
    whether it succeeds or fails.  So after any of [read], [readAccel],
    [readGyro] that was not throttled, with throttling on, any of the three
    called again less than the interval later is throttled: it returns
    THROTTLED and leaves the world and the object as the first call left
    them. *)
Theorem second_read_is_throttled
  (first second : W -> state -> Z * W * state) (w : W) (s : state) :
  In first [read; readAccel; readGyro] ->
  In second [read; readAccel; readGyro] ->
  _throttle s = true ->
  throttled (to_uint32 (millis w)) s = false ->
  let w1 := snd (fst (first w s)) in
  let s1 := snd (first w s) in
  to_uint32 (to_uint32 (millis w1) - to_uint32 (millis w)) < _throttleTime s ->
  second w1 s1 = (to_int16 GY521_THROTTLED, w1, s1).
Proof.
  intros H1 H2 Hon Ht w1 s1 Hlt.
  assert (Hs1 : _throttle s1 = true /\ _throttleTime s1 = _throttleTime s /\
                _lastTime s1 = to_uint32 (millis w)).
  { subst s1. clear Hlt w1 H2.
    destruct s. cbn [_throttle _throttleTime] in *.
    cbn [In] in H1. destruct H1 as [<- | [<- | [<- | []]]];
      [ unfold read | unfold readAccel | unfold readGyro ];
      members; rewrite Ht; run; repeat split; assumption. }
  destruct Hs1 as (Hon1 & Hti1 & Hla1).
  assert (Ht1 : throttled (to_uint32 (millis w1)) s1 = true).
  { unfold throttled. rewrite Hon1, Hti1, Hla1. cbn [andb].
    now apply Z.ltb_lt. }
  cbn [In] in H2. destruct H2 as [<- | [<- | [<- | []]]];
    [ unfold read | unfold readAccel | unfold readGyro ];
    rewrite Ht1; reflexivity.
Qed.

End Sampling.

(** ** Further properties: sensitivity, reset *)

Section Configuration.

Context {F : Type} {FO : FloatOps F}.
Context {W : Type} {TW : Wire.TwoWire W}.
Context {H : Header}.

Local Open Scope flt_scope.

Local Abbreviation state := (GY521 F).

Ltac bus_answers :=
  cbv beta iota zeta delta
    [exchange_of error_after burst select transmit fold_left fst snd] in *.

Lemma sensitivity_field_range (val : Z) : 0 <= sensitivity_field val <= 3.
Proof.
  unfold sensitivity_field.
  assert (E : Z.land (Z.shiftr val 3) 3 = (Z.shiftr val 3 mod 2 ^ 2)%Z).
  { apply (Z.land_ones (Z.shiftr val 3) 2). lia. }
  rewrite E. change (2 ^ 2)%Z with 4%Z.
  pose proof (Z.mod_pos_bound (Z.shiftr val 3) 4). lia.
Qed.

(** X13: the sensitivity getters.  With no error pending and a completed
    exchange, [getAccelSensitivity] returns bits 3-4 of the byte read, a code
    in 0..3, and caches it in [_afs].  With an error pending before the call,
    or a failed exchange, it returns the low byte of the last error and
    leaves [_afs] alone, even when the register was read.  In no case does it
    assign the scale factor.  The same holds of [getGyroSensitivity]. *)
Theorem sensitivity_getters (w : W) (s : state) :
  status_codes_distinct ->
  (let '(r, w', s') := getAccelSensitivity w s in
   let '(val, w1, _) := getRegister GY521_ACCEL_CONFIG w s in
   w' = w1 /\ _raw2g s' = _raw2g s /\
   (_error s = 0%Z ->
    exchange_of to_uint8 (_address s) GY521_ACCEL_CONFIG 1 w = complete ->
    r = sensitivity_field val /\ (0 <= r <= 3)%Z /\ _afs s' = r /\
    _error s' = 0%Z) /\
   (_error s <> 0%Z \/
    exchange_of to_uint8 (_address s) GY521_ACCEL_CONFIG 1 w <> complete ->
    r = to_uint8 (_error s') /\ _error s' <> 0%Z /\ _afs s' = _afs s)) /\
  (let '(r, w', s') := getGyroSensitivity w s in
   let '(val, w1, _) := getRegister GY521_GYRO_CONFIG w s in
   w' = w1 /\ _raw2dps s' = _raw2dps s /\
   (_error s = 0%Z ->
    exchange_of to_uint8 (_address s) GY521_GYRO_CONFIG 1 w = complete ->
    r = sensitivity_field val /\ (0 <= r <= 3)%Z /\ _gfs s' = r /\
    _error s' = 0%Z) /\
   (_error s <> 0%Z \/
    exchange_of to_uint8 (_address s) GY521_GYRO_CONFIG 1 w <> complete ->
    r = to_uint8 (_error s') /\ _error s' <> 0%Z /\ _gfs s' = _gfs s)).
Proof.
  intros (_ & Hrd & Hwr & _). unfold GY521_OK in Hrd, Hwr.
  destruct s. unfold getAccelSensitivity, getGyroSensitivity, getRegister.
  cbn [_address _error _afs _gfs _raw2g _raw2dps]. bus_answers. members.
  fold (sensitivity_field).
  split; run; unfold GY521_OK in *; tests; try (exfalso; congruence);
    (split; [ reflexivity | ]); (split; [ reflexivity | ]);
    (split;
     [ intros He Hx; try discriminate Hx; try (exfalso; congruence);
       repeat split;
       first [ reflexivity | assumption | apply sensitivity_field_range ]
     | intros [He | Hx]; try (exfalso; apply Hx; reflexivity);
       try (exfalso; congruence);
       repeat split; first [ reflexivity | assumption ] ]).
Qed.

(** X14: what a sensitivity setter assigns.  [setAccelSensitivity] changes at
    most the cached code, the accelerometer scale factor and the last error;
    the cached code holds the clamped argument whatever the bus answers; the
    scale factor is the new one when the result is [true] and the old one
    otherwise.  The same holds of [setGyroSensitivity] and the gyro
    members. *)
Theorem sensitivity_setters_frame (c : Z) (w : W) (s : state) :
  (let '(r, _, s') := setAccelSensitivity c w s in
   s' = set_error (_error s') (set_raw2g (_raw2g s') (set_afs (_afs s') s)) /\
   _afs s' = clamp3 (to_uint8 c) /\
   _raw2g s' =
     (if r then of_int (Z.shiftl 1 (clamp3 (to_uint8 c))) * RAW2G_FACTOR
      else _raw2g s)) /\
  (let '(r, _, s') := setGyroSensitivity c w s in
   s' = set_error (_error s') (set_raw2dps (_raw2dps s') (set_gfs (_gfs s') s)) /\
   _gfs s' = clamp3 (to_uint8 c) /\
   _raw2dps s' =
     (if r then of_int (Z.shiftl 1 (clamp3 (to_uint8 c))) * RAW2DPS_FACTOR
      else _raw2dps s)).
Proof.
  destruct s.
  unfold setAccelSensitivity, setGyroSensitivity, getRegister, setRegister,
    clamp3.
  members.
  split; run; members; repeat split.
Qed.

(** X15: an error that is pending when a sensitivity setter is called makes
    it fail.  No method of the driver clears the last error, so with a
    non-zero last error [setAccelSensitivity] and [setGyroSensitivity] read
    the configuration register, return [false] without writing it, keep the
    scale factor and leave a non-zero last error, also when the bus answers
    every transaction. *)
Theorem pending_error_blocks_setters (c : Z) (w : W) (s : state) :
  status_codes_distinct ->
  _error s <> 0%Z ->
  (let '(r, w', s') := setAccelSensitivity c w s in
   r = false /\ w' = snd (fst (getRegister GY521_ACCEL_CONFIG w s)) /\
   _raw2g s' = _raw2g s /\ _error s' <> 0%Z) /\
  (let '(r, w', s') := setGyroSensitivity c w s in
   r = false /\ w' = snd (fst (getRegister GY521_GYRO_CONFIG w s)) /\
   _raw2dps s' = _raw2dps s /\ _error s' <> 0%Z).
Proof.
  intros (_ & Hrd & Hwr & _) He. unfold GY521_OK in Hrd, Hwr.
  destruct s. cbn [_error] in He.
  unfold setAccelSensitivity, setGyroSensitivity, getRegister.
  members.
  split; run; members; tests; try (exfalso; congruence);
    repeat split; assumption.
Qed.

(** X16: the argument of a sensitivity setter is taken as a byte and
    saturates at 3: a call with any argument is the call with the clamped
    code. *)
Theorem sensitivity_code_saturates (c : Z) (w : W) (s : state) :
  setAccelSensitivity c w s = setAccelSensitivity (clamp3 (to_uint8 c)) w s /\
  setGyroSensitivity c w s = setGyroSensitivity (clamp3 (to_uint8 c)) w s.
Proof.
  assert (E : to_uint8 (clamp3 (to_uint8 c)) = clamp3 (to_uint8 c)).
  { unfold clamp3. destruct (3 <? to_uint8 c)%Z; [ reflexivity | ].
    unfold to_uint8. apply Z.mod_mod. lia. }
  destruct s. unfold setAccelSensitivity, setGyroSensitivity.
  rewrite !E. unfold clamp3.
  destruct (3 <? to_uint8 c)%Z eqn:Hc; members; rewrite ?Hc;
    split; reflexivity.
Qed.


(** A sensitivity setter returns [true] with no error pending, provided the
    WRITE error code survives the conversion to the byte that [setRegister]
    returns. *)
Lemma setter_true_no_error (c : Z) (w w' : W) (s s' : state) :
  to_uint8 (to_int16 GY521_ERROR_WRITE) <> GY521_OK ->
  setAccelSensitivity c w s = (true, w', s') \/
  setGyroSensitivity c w s = (true, w', s') ->
  _error s' = 0%Z.
Proof.
  intros Hb E. destruct s.
  unfold setAccelSensitivity, setGyroSensitivity, getRegister, setRegister
    in E.
  members in E. revert E.
  intros [E | E]; revert E; run; intros E; try discriminate E;
    injection E; intros; subst s'; members; tests;
    first [ assumption | contradiction ].
Qed.

End Configuration.

(** ** Further properties on the simulated device *)

Section Device.

Context {F : Type} {FO : FloatOps F} {ML : MathLib F} {H : Header}.

Local Open Scope flt_scope.

Local Abbreviation state := (GY521 F).

Ltac device_bus :=
  cbv beta iota zeta delta
    [Wire.begin Wire.begin_pins
     Wire.beginTransmission Wire.write Wire.endTransmission Wire.requestFrom
     Wire.read FakeWire millis micros FakeClock
     Fake.beginTransmission Fake.write Fake.endTransmission Fake.requestFrom
     Fake.read Fake.regs Fake.ptr Fake.tx Fake.rx Fake.acks Fake.mute
     Fake.now_ms Fake.now_us Fake.log Fake.store_all Fake.fetch
     hd tl Z.to_nat Pos.to_nat Pos.iter_op Init.Nat.add] in *;
  cbn [app length] in *.

(** The bits of a configuration byte outside the field 3-4 after
    [val &= 0xE7; val |= (code << 3)] are the bits it had. *)
Lemma other_bits_kept (v code : Z) :
  (0 <= code <= 3)%Z ->
  Z.land (to_uint8 (Z.lor (to_uint8 (Z.land v 231)) (Z.shiftl code 3))) 231 =
    Z.land (to_uint8 v) 231.
Proof.
  intros Hc. unfold to_uint8. change 256%Z with (2 ^ 8)%Z.
  assert (Hcases : (code = 0 \/ code = 1 \/ code = 2 \/ code = 3)%Z) by lia.
  apply Z.bits_inj'. intros n Hn.
  rewrite !Z.land_spec.
  assert (Hb : (n < 8 \/ 8 <= n)%Z) by lia.
  destruct Hb as [Hlt | Hge].
  - rewrite !Z.testbit_mod_pow2, Z.lor_spec, Z.testbit_mod_pow2,
      Z.land_spec, Z.shiftl_spec by lia.
    generalize (Z.testbit v n). intros b.
    assert (Hn' : (n = 0 \/ n = 1 \/ n = 2 \/ n = 3 \/ n = 4 \/ n = 5 \/
                   n = 6 \/ n = 7)%Z) by lia.
    destruct Hn' as [-> | [-> | [-> | [-> | [-> | [-> | [-> | ->]]]]]]];
      destruct Hcases as [-> | [-> | [-> | ->]]];
      cbn; destruct b; reflexivity.
  - assert (H231 : Z.testbit 231 n = false).
    { apply Z.bits_above_log2; [ lia | ].
      change (Z.log2 231) with 7%Z. lia. }
    now rewrite H231, !andb_false_r.
Qed.

(** X18: a register written with [setRegister] reads back with
    [getRegister].  When the device acknowledges both write transactions and
    answers the read request, [setRegister] returns OK, [getRegister] returns
    the byte that was written, and the object is as it was. *)
Theorem register_round_trip (reg val : Z) (w : Fake.t) (s : state) :
  hd 0%Z (Fake.acks w) = 0%Z ->
  hd 0%Z (tl (Fake.acks w)) = 0%Z ->
  hd false (Fake.mute w) = false ->
  let '(r, w1, s1) := setRegister reg val w s in
  let '(v, _, s2) := getRegister reg w1 s1 in
  r = GY521_OK /\ v = to_uint8 val /\ s2 = s.
Proof.
  destruct s, w as [regs ptr tx rx acks mute ms us lg].
  cbn [Fake.acks Fake.mute].
  destruct acks as [| a0 [| a1 acks]], mute as [| m0 mute];
    cbn [hd tl]; intros Ha0 Ha1 Hm; subst;
    unfold setRegister, getRegister; members; device_bus;
    cbn [Z.eqb negb Z.of_nat]; change (to_uint8 1 =? 1)%Z with true;
    cbn [negb]; rewrite Z.add_0_r, store_same, to_uint8_idem;
    repeat split.
Qed.

(** X19: a sensitivity setter changes nothing on the device but the
    sensitivity field.  Whatever the bus answers, after
    [setAccelSensitivity] every register other than ACCEL_CONFIG holds what
    it held, and so do the bits of ACCEL_CONFIG outside the field 3-4; the
    same holds of [setGyroSensitivity] and GYRO_CONFIG. *)
Theorem setter_touches_field_only (c : Z) (w : Fake.t) (s : state) :
  status_codes_distinct ->
  (let cfg := to_uint8 GY521_ACCEL_CONFIG in
   let '(_, w', _) := setAccelSensitivity c w s in
   (forall a : Z, a <> cfg -> Fake.regs w' a = Fake.regs w a) /\
   Z.land (to_uint8 (Fake.regs w' cfg)) 231 =
     Z.land (to_uint8 (Fake.regs w cfg)) 231) /\
  (let cfg := to_uint8 GY521_GYRO_CONFIG in
   let '(_, w', _) := setGyroSensitivity c w s in
   (forall a : Z, a <> cfg -> Fake.regs w' a = Fake.regs w a) /\
   Z.land (to_uint8 (Fake.regs w' cfg)) 231 =
     Z.land (to_uint8 (Fake.regs w cfg)) 231).
Proof.
  intros (_ & Hrd & Hwr & _). unfold GY521_OK in Hrd, Hwr.
  pose proof (clamp3_range c) as Hk. unfold clamp3 in Hk.
  destruct s, w as [regs ptr tx rx acks mute ms us lg].
  unfold setAccelSensitivity, setGyroSensitivity, getRegister, setRegister.
  members. device_bus. cbn [Z.of_nat].
  change (to_uint8 1 =? 1)%Z with true.
  change (to_uint8 0 =? 1)%Z with false.
  split; run; try discriminate; cbn [Fake.regs]; rewrite ?Z.add_0_r;
    tests; try contradiction;
    (split;
     [ intros a Ha; unfold Fake.store;
       try (destruct (a =? _)%Z eqn:Ea;
            [ apply Z.eqb_eq in Ea; contradiction | ]);
       reflexivity
     | rewrite ?store_same, ?to_uint8_idem;
       first [ reflexivity
             | rewrite other_bits_kept by lia; rewrite to_uint8_idem;
               reflexivity ] ]).
Qed.

(** X20: a sensitivity that was set reads back.  After a
    [setAccelSensitivity] that returned [true], a [getAccelSensitivity] whose
    exchange completes returns the clamped code and changes nothing in the
    object; the same holds of the gyro pair. *)
Theorem sensitivity_round_trip (c : Z) (w : Fake.t) (s : state) :
  status_codes_distinct ->
  to_uint8 (to_int16 GY521_ERROR_WRITE) <> GY521_OK ->
  (let '(r, w1, s1) := setAccelSensitivity c w s in
   r = true -> next_exchange_completes w1 = true ->
   let '(k, _, s2) := getAccelSensitivity w1 s1 in
   k = clamp3 (to_uint8 c) /\ s2 = s1) /\
  (let '(r, w1, s1) := setGyroSensitivity c w s in
   r = true -> next_exchange_completes w1 = true ->
   let '(k, _, s2) := getGyroSensitivity w1 s1 in
   k = clamp3 (to_uint8 c) /\ s2 = s1).
Proof.
  intros Hd Hb. split.
  - pose proof (fake_setAccelSensitivity c w s Hd) as C. cbv zeta in C.
    destruct (setAccelSensitivity c w s) as [[r w1] s1] eqn:E. intros -> Hc.
    destruct C as (_ & _ & St).
    destruct (setAccelSensitivity_true c w w1 s s1 E) as [Ha _].
    pose proof (setter_true_no_error c w w1 s s1 Hb (or_introl E)) as N.
    destruct St as [St | St]; [ contradiction | ]. specialize (St Hc).
    unfold getAccelSensitivity.
    pose proof (fake_getRegister GY521_ACCEL_CONFIG GY521_ACCEL_CONFIG w1 s1
                  Hd) as G.
    destruct (getRegister GY521_ACCEL_CONFIG w1 s1) as [[v w2] s2].
    destruct G as (_ & _ & G). rewrite Hc in G. destruct G as [-> ->].
    rewrite N. cbn [Z.eqb GY521_OK negb].
    fold (sensitivity_field
            (to_uint8 (Fake.regs w1 (to_uint8 GY521_ACCEL_CONFIG)))).
    rewrite St, <- Ha. destruct s1. members. split; reflexivity.
  - pose proof (fake_setGyroSensitivity c w s Hd) as C. cbv zeta in C.
    destruct (setGyroSensitivity c w s) as [[r w1] s1] eqn:E. intros -> Hc.
    destruct C as (_ & _ & St).
    destruct (setGyroSensitivity_true c w w1 s s1 E) as [Ha _].
    pose proof (setter_true_no_error c w w1 s s1 Hb (or_intror E)) as N.
    destruct St as [St | St]; [ contradiction | ]. specialize (St Hc).
    unfold getGyroSensitivity.
    pose proof (fake_getRegister GY521_GYRO_CONFIG GY521_GYRO_CONFIG w1 s1
                  Hd) as G.
    destruct (getRegister GY521_GYRO_CONFIG w1 s1) as [[v w2] s2].
    destruct G as (_ & _ & G). rewrite Hc in G. destruct G as [-> ->].
    rewrite N. cbn [Z.eqb GY521_OK negb].
    fold (sensitivity_field
            (to_uint8 (Fake.regs w1 (to_uint8 GY521_GYRO_CONFIG)))).
    rewrite St, <- Ha. destruct s1. members. split; reflexivity.
Qed.

(** X21: [begin] probes the device and wakes it.  It returns [true] exactly
    when the device acknowledges the probe and the wake-up write; the probe
    is a transaction without data; when the probe is not acknowledged nothing
    else is sent and no register changes; when it is, the only other
    transaction writes the wake-up value to PWR_MGMT_1, and a [true] result
    leaves that register holding it while every other register holds what
    it held. *)
Theorem begin_wakes_the_device (w : Fake.t) (s : state) :
  let probe := hd 0%Z (Fake.acks w) in
  let wake := hd 0%Z (tl (Fake.acks w)) in
  let pwr := to_uint8 GY521_PWR_MGMT_1 in
  let '(r, w') := begin w s in
  r = ((probe =? 0)%Z && (wake =? 0)%Z)%bool /\
  Fake.log w' =
    (Fake.log w ++
     if (probe =? 0)%Z then [([], 0%Z); ([pwr; to_uint8 GY521_WAKEUP], wake)]
     else [([], probe)])%list /\
  (forall a : Z, a <> pwr -> Fake.regs w' a = Fake.regs w a) /\
  Fake.regs w' pwr = (if r then to_uint8 GY521_WAKEUP else Fake.regs w pwr).
Proof.
  destruct s, w as [regs ptr tx rx acks mute ms us lg].
  unfold begin, isConnected, wakeup. members. device_bus.
  cbn [Z.of_nat].
  run; cbn [Fake.regs Fake.log andb]; tests; subst;
    rewrite <- ?app_assoc; cbn [app]; rewrite ?store_same;
    repeat split; try discriminate;
    try (intros a Ha; unfold Fake.store;
         try (destruct (a =? _)%Z eqn:Ea;
              [ apply Z.eqb_eq in Ea; contradiction | ]);
         reflexivity).
Qed.

(** The signed 16-bit number that the device keeps, high byte first, in the
    registers [a] and [a + 1]. *)
Definition word_at (m : Z -> Z) (a : Z) : Z :=
  let hi := m a in
  let lo := m (a + 1)%Z in
  if (hi <? 128)%Z then (hi * 256 + lo)%Z else (hi * 256 + lo - 65536)%Z.

(** The simulated exchange of a read goes through. *)
Ltac exchange_goes_through Hc :=
  unfold next_exchange_completes in Hc; apply andb_prop in Hc;
  destruct Hc as [Hack Hmute]; apply Z.eqb_eq in Hack;
  apply negb_true_iff in Hmute; cbn [Fake.acks Fake.mute] in Hack, Hmute.

(** Register addresses as offsets from the first register of a burst. *)
Ltac offsets :=
  rewrite ?Z.add_0_r; rewrite <- ?Z.add_assoc;
  cbn [Z.add Pos.add Pos.succ Pos.add_carry].

(** X22: where [read] takes its samples from.  On a device whose registers
    hold bytes, a [read] that is not throttled and whose exchange completes
    returns OK, writes no register, and converts the seven big-endian words
    of the 14 registers from ACCEL_XOUT_H on: the accelerations from the
    words at offsets 0, 2 and 4, the temperature from the word at offset 6,
    the angular rates from the words at offsets 8, 10 and 12. *)
Theorem read_register_map (w : Fake.t) (s : state) :
  (forall a : Z, (0 <= Fake.regs w a < 256)%Z) ->
  next_exchange_completes w = true ->
  throttled (to_uint32 (Fake.now_ms w)) s = false ->
  let raw (i : Z) :=
    of_int (word_at (Fake.regs w) (to_uint8 GY521_ACCEL_XOUT_H + i)) in
  let '(r, w', s') := read w s in
  r = GY521_OK /\ Fake.regs w' = Fake.regs w /\
  (_ax s', _ay s', _az s') =
    (raw 0%Z * _raw2g s + axe s, raw 2%Z * _raw2g s + aye s,
     raw 4%Z * _raw2g s + aze s) /\
  _temperature s' =
    raw 6%Z * lit (294117647 # 100000000000) + lit (3653 # 100) /\
  (_gx s', _gy s', _gz s') =
    (raw 8%Z * _raw2dps s + gxe s, raw 10%Z * _raw2dps s + gye s,
     raw 12%Z * _raw2dps s + gze s).
Proof.
  intros Hbytes Hc Ht raw. subst raw. unfold read.
  change (millis w) with (Fake.now_ms w). rewrite Ht. clear Ht.
  destruct s, w as [regs ptr tx rx acks mute ms us lg].
  exchange_goes_through Hc. cbn [Fake.regs] in Hbytes.
  destruct acks as [| a0 acks], mute as [| m0 mute];
    cbn [hd] in Hack, Hmute; subst;
    unfold _WireRead2, word_at; members; device_bus;
    cbn [Z.eqb negb Z.of_nat]; change (to_int8 14 =? 14)%Z with true;
    cbn [negb]; cbn [Fake.regs];
    rewrite !int16_of_bytes by apply Hbytes; offsets;
    repeat split.
Qed.

(** X23: where the partial reads take their samples from.  Under the same
    conditions [readAccel] converts the three words from ACCEL_XOUT_H on,
    [readGyro] the three words from GYRO_XOUT_H on, and [readTemperature]
    stores the word at TEMP_OUT_H as it is; none of them writes a
    register. *)
Theorem partial_reads_register_map (w : Fake.t) (s : state) :
  (forall a : Z, (0 <= Fake.regs w a < 256)%Z) ->
  next_exchange_completes w = true ->
  throttled (to_uint32 (Fake.now_ms w)) s = false ->
  let raw (reg i : Z) := of_int (word_at (Fake.regs w) (to_uint8 reg + i)) in
  (let '(r, w', s') := readAccel w s in
   r = GY521_OK /\ Fake.regs w' = Fake.regs w /\
   (_ax s', _ay s', _az s') =
     (raw GY521_ACCEL_XOUT_H 0%Z * _raw2g s + axe s,
      raw GY521_ACCEL_XOUT_H 2%Z * _raw2g s + aye s,
      raw GY521_ACCEL_XOUT_H 4%Z * _raw2g s + aze s)) /\
  (let '(r, w', s') := readGyro w s in
   r = GY521_OK /\ Fake.regs w' = Fake.regs w /\
   (_gx s', _gy s', _gz s') =
     (raw GY521_GYRO_XOUT_H 0%Z * _raw2dps s + gxe s,
      raw GY521_GYRO_XOUT_H 2%Z * _raw2dps s + gye s,
      raw GY521_GYRO_XOUT_H 4%Z * _raw2dps s + gze s)) /\
  (let '(r, w', s') := readTemperature w s in
   r = GY521_OK /\ Fake.regs w' = Fake.regs w /\
   _temperature s' = raw GY521_TEMP_OUT_H 0%Z).
Proof.
  intros Hbytes Hc Ht raw. subst raw.
  unfold readAccel, readGyro, readTemperature.
  change (millis w) with (Fake.now_ms w). rewrite Ht. clear Ht.
  destruct s, w as [regs ptr tx rx acks mute ms us lg].
  exchange_goes_through Hc. cbn [Fake.regs] in Hbytes.
  destruct acks as [| a0 acks], mute as [| m0 mute];
    cbn [hd] in Hack, Hmute; subst;
    unfold _WireRead2, word_at; members; device_bus;
    cbn [Z.eqb negb Z.of_nat];
    change (to_int8 6 =? 6)%Z with true;
    change (to_int8 2 =? 2)%Z with true;
    cbn [negb]; cbn [Fake.regs];
    rewrite !int16_of_bytes by apply Hbytes; offsets;
    repeat split.
Qed.

End Device.

(** ** The further properties on concrete runs *)

Section MoreRuns.

#[local] Existing Instance gy521_header.

Local Open Scope Z_scope.

(** A bus on which the device does not acknowledge, at 100 ms. *)
Definition silent_bus : Fake.t := device_acks [2] [] 100 0.

(** A world whose receive buffer holds the two bytes 0xFF, 0x38. *)
Definition two_bytes : Fake.t :=
  Fake.mk (Fake.regs_of []) 0 [] [255; 56] [] [] 0 0 [].

(** The object at rest with its throttle timestamp 6 ms, and its integration
    reference 967296 us, before the clocks roll over. *)
Definition before_rollover : GY521 R :=
  set_lastMicros 4294000000 (set_lastTime 4294967290 at_rest).

(** The device turning about X, 2 ms and 32704 us after the clocks rolled
    over. *)
Definition after_rollover : Fake.t := device [(68, 131)] 2 32704.

(** The same device, 12 ms after the roll-over. *)
Definition later_after_rollover : Fake.t := device [(68, 131)] 12 32704.

(** The object at rest with the WRITE error pending. *)
Definition with_pending_error : GY521 R :=
  set_error (to_int16 GY521_ERROR_WRITE) at_rest.

(** A device that holds 0x2000, 0xFFF0, 0x4000 (acceleration), 0x1388
    (temperature) and 0x0083, 0, 0xFF7D (gyro) in its data registers and
    0xE7 in both configuration registers, at 100 ms. *)
Definition sampled : Fake.t :=
  device [(59, 32); (61, 255); (62, 240); (63, 64); (65, 19); (66, 136);
          (68, 131); (71, 255); (72, 125); (27, 231); (28, 231)] 100 1000000.

Lemma sampled_bytes (a : Z) : 0 <= Fake.regs sampled a < 256.
Proof.
  unfold sampled, device. cbn [Fake.regs Fake.regs_of]. unfold Fake.store.
  repeat match goal with
         | |- context [(a =? ?k)] => destruct (a =? k)
         end; lia.
Defined.

(** [WireRead2_big_endian] at the bytes 0xFF, 0x38: the word is -200. *)
Lemma WireRead2_big_endian_witness :
  0 <= 255 < 256 /\ 0 <= 56 < 256 /\ fst (_WireRead2 two_bytes) = -200.
Proof.
  assert (Hhi : 0 <= 255 < 256) by lia.
  assert (Hlo : 0 <= 56 < 256) by lia.
  assert (E1 : Wire.read two_bytes = (255, snd (Wire.read two_bytes)))
    by reflexivity.
  assert (E2 : Wire.read (snd (Wire.read two_bytes)) =
               (56, snd (Wire.read (snd (Wire.read two_bytes)))))
    by reflexivity.
  split; [ exact Hhi | ]. split; [ exact Hlo | ].
  rewrite (WireRead2_big_endian two_bytes _ _ 255 56 E1 E2 Hhi Hlo).
  reflexivity.
Defined.

(** [failed_read_keeps_samples] on the bus that does not acknowledge. *)
Lemma failed_read_keeps_samples_witness :
  throttled (to_uint32 (millis silent_bus)) at_rest = false /\
  read silent_bus at_rest =
    (status_after not_acknowledged,
     snd (select (_address at_rest) GY521_ACCEL_XOUT_H silent_bus),
     set_error (status_after not_acknowledged)
       (set_lastTime (to_uint32 (millis silent_bus)) at_rest)).
Proof.
  assert (Ht : throttled (to_uint32 (millis silent_bus)) at_rest = false)
    by (vm_compute; reflexivity).
  assert (Hx : not_acknowledged =
               exchange_of to_int8 (_address at_rest) GY521_ACCEL_XOUT_H 14
                 silent_bus) by (vm_compute; reflexivity).
  assert (Hn : not_acknowledged <> complete) by discriminate.
  split; [ exact Ht | ].
  exact (proj1 (failed_read_keeps_samples silent_bus at_rest Ht)
           not_acknowledged Hx Hn).
Defined.

(** [tilt_angles_follow_acceleration] at the object at rest, on the sampled
    device. *)
Lemma tilt_angles_follow_acceleration_witness :
  status_codes_distinct /\
  read sampled at_rest =
    (GY521_OK, snd (fst (read sampled at_rest)), snd (read sampled at_rest)) /\
  (_aax (snd (read sampled at_rest)), _aay (snd (read sampled at_rest)),
   _aaz (snd (read sampled at_rest))) =
    tilt_angles_of (snd (read sampled at_rest)).
Proof.
  assert (E : read sampled at_rest =
              (GY521_OK, snd (fst (read sampled at_rest)),
               snd (read sampled at_rest))).
  { apply run_with_status. vm_compute. reflexivity. }
  split; [ exact gy521_header_distinct | ]. split; [ exact E | ].
  exact (tilt_angles_follow_acceleration _ _ _ _ gy521_header_distinct
           (or_introl E)).
Defined.

(** [throttle_wrap_safe] across the roll-over: 8 ms after the timestamp the
    read is throttled. *)
Lemma throttle_wrap_safe_witness :
  _throttle before_rollover = true /\
  0 <= _lastTime before_rollover < 4294967296 /\
  0 <= 8 < 4294967296 /\
  to_uint32 (millis after_rollover) =
    to_uint32 (_lastTime before_rollover + 8) /\
  read after_rollover before_rollover =
    (to_int16 GY521_THROTTLED, after_rollover, before_rollover).
Proof.
  assert (Hon : _throttle before_rollover = true) by reflexivity.
  assert (Hl : 0 <= _lastTime before_rollover < 4294967296)
    by (cbn; lia).
  assert (Hd : 0 <= 8 < 4294967296) by lia.
  assert (Hnow : to_uint32 (millis after_rollover) =
                 to_uint32 (_lastTime before_rollover + 8))
    by (vm_compute; reflexivity).
  assert (Hlt : 8 < _throttleTime before_rollover) by (cbn; lia).
  split; [ exact Hon | ]. split; [ exact Hl | ]. split; [ exact Hd | ].
  split; [ exact Hnow | ].
  exact (proj1 (proj1 (proj2 (throttle_wrap_safe after_rollover
                                before_rollover 8 Hon Hl Hd Hnow)) Hlt)).
Defined.

(** [integration_wrap_safe] across the roll-over: one second after the
    integration reference, a gyro-only read advances the gyro angles by the
    rates times one second. *)
Lemma integration_wrap_safe_witness :
  status_codes_distinct /\
  readGyro later_after_rollover before_rollover =
    (GY521_OK, snd (fst (readGyro later_after_rollover before_rollover)),
     snd (readGyro later_after_rollover before_rollover)) /\
  0 <= _lastMicros before_rollover < 4294967296 /\
  0 <= 1000000 < 4294967296 /\
  to_uint32 (micros (snd (fst (readGyro later_after_rollover
                                 before_rollover)))) =
    to_uint32 (_lastMicros before_rollover + 1000000) /\
  _gax (snd (readGyro later_after_rollover before_rollover)) =
    (_gax before_rollover +
     _gx (snd (readGyro later_after_rollover before_rollover)) *
       (of_int 1000000 * lit (1 # 1000000)))%flt.
Proof.
  assert (E : readGyro later_after_rollover before_rollover =
              (GY521_OK,
               snd (fst (readGyro later_after_rollover before_rollover)),
               snd (readGyro later_after_rollover before_rollover))).
  { apply run_with_status. vm_compute. reflexivity. }
  assert (Hl : 0 <= _lastMicros before_rollover < 4294967296)
    by (cbn; lia).
  assert (Hd : 0 <= 1000000 < 4294967296) by lia.
  assert (Hnow : to_uint32 (micros (snd (fst (readGyro later_after_rollover
                                                before_rollover)))) =
                 to_uint32 (_lastMicros before_rollover + 1000000))
    by (vm_compute; reflexivity).
  split; [ exact gy521_header_distinct | ].
  split; [ exact E | ]. split; [ exact Hl | ]. split; [ exact Hd | ].
  split; [ exact Hnow | ].
  exact (proj1 (integration_wrap_safe _ _ _ _ 1000000 gy521_header_distinct
                  (or_intror E) Hl Hd Hnow)).
Defined.

(** [second_read_is_throttled]: a gyro-only read right after a full read. *)
Lemma second_read_is_throttled_witness :
  In (@read R _ _ Fake.t _ _ _) [read; readAccel; readGyro] /\
  In (@readGyro R _ Fake.t _ _ _) [read; readAccel; readGyro] /\
  _throttle at_rest = true /\
  throttled (to_uint32 (millis sampled)) at_rest = false /\
  to_uint32 (to_uint32 (millis (snd (fst (read sampled at_rest)))) -
             to_uint32 (millis sampled)) < _throttleTime at_rest /\
  readGyro (snd (fst (read sampled at_rest))) (snd (read sampled at_rest)) =
    (to_int16 GY521_THROTTLED, snd (fst (read sampled at_rest)),
     snd (read sampled at_rest)).
Proof.
  assert (H1 : In (@read R _ _ Fake.t _ _ _) [read; readAccel; readGyro])
    by (left; reflexivity).
  assert (H2 : In (@readGyro R _ Fake.t _ _ _) [read; readAccel; readGyro])
    by (right; right; left; reflexivity).
  assert (Hon : _throttle at_rest = true) by reflexivity.
  assert (Ht : throttled (to_uint32 (millis sampled)) at_rest = false)
    by (vm_compute; reflexivity).
  assert (Hlt : to_uint32
                  (to_uint32 (millis (snd (fst (read sampled at_rest)))) -
                   to_uint32 (millis sampled)) < _throttleTime at_rest)
    by (vm_compute; reflexivity).
  split; [ exact H1 | ]. split; [ exact H2 | ]. split; [ exact Hon | ].
  split; [ exact Ht | ]. split; [ exact Hlt | ].
  exact (second_read_is_throttled read readGyro sampled at_rest H1 H2 Hon Ht
           Hlt).
Defined.

(** [sensitivity_getters] on the sampled device: bits 3-4 of 0xE7 are 0. *)
Lemma sensitivity_getters_witness :
  status_codes_distinct /\
  fst (fst (getAccelSensitivity sampled at_rest)) = 0.
Proof.
  split; [ exact gy521_header_distinct | ].
  pose proof (sensitivity_getters sampled at_rest gy521_header_distinct) as T.
  destruct T as [T _]. revert T. vm_compute. intros (_ & _ & T & _).
  exact (proj1 (T eq_refl eq_refl)).
Defined.

(** [pending_error_blocks_setters] on the sampled device, which answers every
    transaction. *)
Lemma pending_error_blocks_setters_witness :
  status_codes_distinct /\
  _error with_pending_error <> 0 /\
  fst (fst (setAccelSensitivity 2 sampled with_pending_error)) = false.
Proof.
  assert (He : _error with_pending_error <> 0) by (vm_compute; discriminate).
  split; [ exact gy521_header_distinct | ]. split; [ exact He | ].
  pose proof (pending_error_blocks_setters 2 sampled with_pending_error
                gy521_header_distinct He) as T.
  destruct T as [T _]. revert T. vm_compute. intros [E _]. exact E.
Defined.

(** [register_round_trip] with the byte 0x18 in ACCEL_CONFIG. *)
Lemma register_round_trip_witness :
  hd 0 (Fake.acks sampled) = 0 /\
  hd 0 (tl (Fake.acks sampled)) = 0 /\
  hd false (Fake.mute sampled) = false /\
  (let '(r, w1, s1) := setRegister GY521_ACCEL_CONFIG 24 sampled at_rest in
   let '(v, _, s2) := getRegister GY521_ACCEL_CONFIG w1 s1 in
   r = GY521_OK /\ v = to_uint8 24 /\ s2 = at_rest).
Proof.
  assert (Ha : hd 0 (Fake.acks sampled) = 0) by reflexivity.
  assert (Hb : hd 0 (tl (Fake.acks sampled)) = 0) by reflexivity.
  assert (Hm : hd false (Fake.mute sampled) = false) by reflexivity.
  split; [ exact Ha | ]. split; [ exact Hb | ]. split; [ exact Hm | ].
  exact (register_round_trip GY521_ACCEL_CONFIG 24 sampled at_rest Ha Hb Hm).
Defined.

(** [setter_touches_field_only] on the sampled device: after code 2 is set,
    the bits of ACCEL_CONFIG outside the field still read 0xE7. *)
Lemma setter_touches_field_only_witness :
  status_codes_distinct /\
  Z.land
    (to_uint8
       (Fake.regs (snd (fst (setAccelSensitivity 2 sampled at_rest))) 28))
    231 = 231.
Proof.
  split; [ exact gy521_header_distinct | ].
  pose proof (setter_touches_field_only 2 sampled at_rest
                gy521_header_distinct) as T.
  destruct T as [T _]. revert T. vm_compute. intros [_ E]. exact E.
Defined.

(** What holds of the three components of a run holds of its projections. *)
Lemma run_components {A B C : Type} (P : A -> B -> C -> Prop) (p : A * B * C) :
  (let '(a, b, c) := p in P a b c) -> P (fst (fst p)) (snd (fst p)) (snd p).
Proof. destruct p as [[a b] c]. exact (fun HP => HP). Defined.

(** [sensitivity_round_trip] at code 2, on the sampled device: both setters
    return [true] and leave a bus that answers, and both getters then return
    2. *)
Lemma sensitivity_round_trip_witness :
  status_codes_distinct /\
  to_uint8 (to_int16 GY521_ERROR_WRITE) <> GY521_OK /\
  (fst (fst (setAccelSensitivity 2 sampled at_rest)) = true /\
   next_exchange_completes
     (snd (fst (setAccelSensitivity 2 sampled at_rest))) = true /\
   fst (fst (getAccelSensitivity
               (snd (fst (setAccelSensitivity 2 sampled at_rest)))
               (snd (setAccelSensitivity 2 sampled at_rest)))) = 2) /\
  (fst (fst (setGyroSensitivity 2 sampled at_rest)) = true /\
   next_exchange_completes
     (snd (fst (setGyroSensitivity 2 sampled at_rest))) = true /\
   fst (fst (getGyroSensitivity
               (snd (fst (setGyroSensitivity 2 sampled at_rest)))
               (snd (setGyroSensitivity 2 sampled at_rest)))) = 2).
Proof.
  assert (Hb : to_uint8 (to_int16 GY521_ERROR_WRITE) <> GY521_OK)
    by (vm_compute; discriminate).
  assert (Ha : fst (fst (setAccelSensitivity 2 sampled at_rest)) = true)
    by (vm_compute; reflexivity).
  assert (Na : next_exchange_completes
                 (snd (fst (setAccelSensitivity 2 sampled at_rest))) = true)
    by (vm_compute; reflexivity).
  assert (Hg : fst (fst (setGyroSensitivity 2 sampled at_rest)) = true)
    by (vm_compute; reflexivity).
  assert (Ng : next_exchange_completes
                 (snd (fst (setGyroSensitivity 2 sampled at_rest))) = true)
    by (vm_compute; reflexivity).
  pose proof (sensitivity_round_trip 2 sampled at_rest gy521_header_distinct
                Hb) as T.
  destruct T as [Ta Tg].
  pose proof (run_components
                (fun r w1 s1 =>
                   r = true -> next_exchange_completes w1 = true ->
                   let '(k, _, s2) := getAccelSensitivity w1 s1 in
                   k = clamp3 (to_uint8 2) /\ s2 = s1)
                (setAccelSensitivity 2 sampled at_rest) Ta Ha Na) as Ta1.
  pose proof (run_components
                (fun k (_ : Fake.t) s2 =>
                   k = clamp3 (to_uint8 2) /\
                   s2 = snd (setAccelSensitivity 2 sampled at_rest))
                (getAccelSensitivity
                   (snd (fst (setAccelSensitivity 2 sampled at_rest)))
                   (snd (setAccelSensitivity 2 sampled at_rest))) Ta1)
    as Ta2.
  pose proof (run_components
                (fun r w1 s1 =>
                   r = true -> next_exchange_completes w1 = true ->
                   let '(k, _, s2) := getGyroSensitivity w1 s1 in
                   k = clamp3 (to_uint8 2) /\ s2 = s1)
                (setGyroSensitivity 2 sampled at_rest) Tg Hg Ng) as Tg1.
  pose proof (run_components
                (fun k (_ : Fake.t) s2 =>
                   k = clamp3 (to_uint8 2) /\
                   s2 = snd (setGyroSensitivity 2 sampled at_rest))
                (getGyroSensitivity
                   (snd (fst (setGyroSensitivity 2 sampled at_rest)))
                   (snd (setGyroSensitivity 2 sampled at_rest))) Tg1)
    as Tg2.
  destruct Ta2 as [Ka _]. destruct Tg2 as [Kg _].
  split; [ exact gy521_header_distinct | ]. split; [ exact Hb | ].
  split; [ split; [ exact Ha | split; [ exact Na | ] ]
         | split; [ exact Hg | split; [ exact Ng | ] ] ].
  - rewrite Ka. reflexivity.
  - rewrite Kg. reflexivity.
Defined.

(** Code 2 set and read back on the sampled device, whose ACCEL_CONFIG and
    GYRO_CONFIG then hold 0xF7. *)
Example sensitivity_set_then_get :
  (let '(r, w1, s1) := setAccelSensitivity 2 sampled at_rest in
   let '(k, w2, _) := getAccelSensitivity w1 s1 in
   r = true /\ k = 2 /\ Fake.regs w2 28 = 247) /\
  (let '(r, w1, s1) := setGyroSensitivity 2 sampled at_rest in
   let '(k, w2, _) := getGyroSensitivity w1 s1 in
   r = true /\ k = 2 /\ Fake.regs w2 27 = 247).
Proof. vm_compute. repeat split. Qed.

(** [read_register_map] at the object at rest, on the sampled device. *)
Lemma read_register_map_witness :
  next_exchange_completes sampled = true /\
  throttled (to_uint32 (Fake.now_ms sampled)) at_rest = false /\
  (let raw (i : Z) :=
     of_int (word_at (Fake.regs sampled) (to_uint8 GY521_ACCEL_XOUT_H + i)) in
   let '(r, w', s') := read sampled at_rest in
   r = GY521_OK /\ Fake.regs w' = Fake.regs sampled /\
   (_ax s', _ay s', _az s') =
     (raw 0 * _raw2g at_rest + axe at_rest,
      raw 2 * _raw2g at_rest + aye at_rest,
      raw 4 * _raw2g at_rest + aze at_rest) /\
   _temperature s' =
     raw 6 * lit (294117647 # 100000000000) + lit (3653 # 100) /\
   (_gx s', _gy s', _gz s') =
     (raw 8 * _raw2dps at_rest + gxe at_rest,
      raw 10 * _raw2dps at_rest + gye at_rest,
      raw 12 * _raw2dps at_rest + gze at_rest))%flt.
Proof.
  assert (Hc : next_exchange_completes sampled = true) by reflexivity.
  assert (Ht : throttled (to_uint32 (Fake.now_ms sampled)) at_rest = false)
    by (vm_compute; reflexivity).
  split; [ exact Hc | ]. split; [ exact Ht | ].
  pose proof (read_register_map sampled at_rest sampled_bytes Hc Ht) as T.
  exact T.
Defined.

(** [partial_reads_register_map] at the object at rest, on the sampled
    device. *)
Lemma partial_reads_register_map_witness :
  next_exchange_completes sampled = true /\
  throttled (to_uint32 (Fake.now_ms sampled)) at_rest = false /\
  (let raw (reg i : Z) :=
     of_int (word_at (Fake.regs sampled) (to_uint8 reg + i)) in
   (let '(r, w', s') := readAccel sampled at_rest in
    r = GY521_OK /\ Fake.regs w' = Fake.regs sampled /\
    (_ax s', _ay s', _az s') =
      (raw GY521_ACCEL_XOUT_H 0 * _raw2g at_rest + axe at_rest,
       raw GY521_ACCEL_XOUT_H 2 * _raw2g at_rest + aye at_rest,
       raw GY521_ACCEL_XOUT_H 4 * _raw2g at_rest + aze at_rest)) /\
   (let '(r, w', s') := readGyro sampled at_rest in
    r = GY521_OK /\ Fake.regs w' = Fake.regs sampled /\
    (_gx s', _gy s', _gz s') =
      (raw GY521_GYRO_XOUT_H 0 * _raw2dps at_rest + gxe at_rest,
       raw GY521_GYRO_XOUT_H 2 * _raw2dps at_rest + gye at_rest,
       raw GY521_GYRO_XOUT_H 4 * _raw2dps at_rest + gze at_rest)) /\
   (let '(r, w', s') := readTemperature sampled at_rest in
    r = GY521_OK /\ Fake.regs w' = Fake.regs sampled /\
    _temperature s' = raw GY521_TEMP_OUT_H 0))%flt.
Proof.
  assert (Hc : next_exchange_completes sampled = true) by reflexivity.
  assert (Ht : throttled (to_uint32 (Fake.now_ms sampled)) at_rest = false)
    by (vm_compute; reflexivity).
  split; [ exact Hc | ]. split; [ exact Ht | ].
  pose proof (partial_reads_register_map sampled at_rest sampled_bytes Hc Ht)
    as T.
  exact T.
Defined.

(** [read_ok_conversions] at the object at rest, on the sampled device: the
    temperature is a raw word times 0.00294117647 plus 36.53. *)
Lemma read_ok_conversions_witness :
  status_codes_distinct /\
  read sampled at_rest =
    (GY521_OK, snd (fst (read sampled at_rest)), snd (read sampled at_rest)) /\
  exists rt : Z,
    _temperature (snd (read sampled at_rest)) =
      (of_int rt * lit (294117647 # 100000000000) + lit (3653 # 100))%flt.
Proof.
  assert (E : read sampled at_rest =
              (GY521_OK, snd (fst (read sampled at_rest)),
               snd (read sampled at_rest))).
  { apply run_with_status. vm_compute. reflexivity. }
  split; [ exact gy521_header_distinct | ]. split; [ exact E | ].
  pose proof (read_ok_conversions _ _ _ _ gy521_header_distinct E) as T.
  destruct T as (rax & ray & raz & rt & rgx & rgy & rgz & T).
  destruct T as (_ & _ & _ & Et & _).
  exists rt. exact Et.
Defined.

End MoreRuns.
